(** * mc_ssh: the command-line front end (src/mc_ssh/mccli.py)

    A shallow embedding of the three subcommands [ssh], [scp] and [sftp].
    The module calls out to two sibling modules (ssh_service and utils) and
    to the terminal; every such call is an observable event.  A run of a
    subcommand is a function from the state of the outside world to a
    result (normal return or escaping exception), the new state of the
    world and the list of events, in the order in which they happened. *)

From Stdlib Require Import String Ascii List ZArith Lia Bool DecimalString.
Import ListNotations.

Local Open Scope list_scope.
Local Open Scope string_scope.
Local Open Scope Z_scope.

(** ** Python values and exceptions *)

Module Py.

(** What the attribute [filename] of an OSError can hold. *)
Inductive pyobj : Type :=
| PyNone
| PyStr (s : string)
| PyBytes (b : string).

(** The exception classes that [scp] tells apart; [Exception] stands for
    every other subclass of Exception.  [msg] is what [str(e)] gives. *)
Inductive exn : Type :=
| PermissionError (msg : string) (filename : pyobj)
| IsADirectoryError (msg : string) (filename : pyobj)
| FileNotFoundError (msg : string) (filename : pyobj)
| Exception (msg : string).

(** [str(e)], what [print(e)] writes. *)
Definition str_exn (e : exn) : string :=
  match e with
  | PermissionError msg _ => msg
  | IsADirectoryError msg _ => msg
  | FileNotFoundError msg _ => msg
  | Exception msg => msg
  end.

(** [f"{n}"] for an int. *)
Definition str_int (n : Z) : string := NilZero.string_of_int (Z.to_int n).

(** Truth value of an int in a condition. *)
Definition truthy_int (n : Z) : bool := negb (n =? 0).

(** Truth value of a str-or-None in a condition. *)
Definition truthy_str (s : option string) : bool :=
  match s with
  | None => false
  | Some EmptyString => false
  | Some _ => true
  end.

(** [d.get(key, default)], where [None] stands for a missing key. *)
Definition get {A : Type} (v : option A) (default : A) : A :=
  match v with
  | Some x => x
  | None => default
  end.

(** Reading a local name that no assignment has bound yet. *)
Definition UnboundLocalError (name : string) : exn :=
  Exception ("local variable '" ++ name ++ "' referenced before assignment").

(** [obj.decode('utf-8')]: only bytes have the method. *)
Definition decode (utf8 : string -> exn + string) (o : pyobj) : exn + string :=
  match o with
  | PyBytes b => utf8 b
  | PyStr _ => inl (Exception "'str' object has no attribute 'decode'")
  | PyNone => inl (Exception "'NoneType' object has no attribute 'decode'")
  end.

(** [f"{obj}"]. *)
Definition format (repr_bytes : string -> string) (o : pyobj) : string :=
  match o with
  | PyBytes b => repr_bytes b
  | PyStr s => s
  | PyNone => "None"
  end.

End Py.
Import Py.

(** ** Calls that leave the module *)

(** Modelled from the spec: the constant SSH_PORT of ssh_service, which is
    not part of the source; the spec gives the default port as 22. *)
Definition SSH_PORT : Z := 22.

(** One constructor per imported function, with the arguments of the call. *)
Inductive call : Type :=
| c_init_endpoint (mc_endpoint : option string) (hostname : string) (verify : bool)
| c_init_token (token oa_account iss : option string) (mc_url : string) (verify : bool)
| c_init_user (mc_url access_token : string) (verify : bool)
| c_str_init_token (token oa_account iss : option string)
| c_ssh_interactive (hostname username access_token : string) (p : Z)
| c_ssh_exec (hostname username access_token : string) (p : Z) (command : string)
| c_scp_get (host username access_token : string) (port : Z)
            (src_path dest_path : string) (recursive preserve_times : bool)
| c_scp_put (host username access_token : string) (port : Z)
            (src_path dest_path : string) (recursive preserve_times : bool).

(** A call together with how it ended, or a line written by [print]. *)
Inductive event : Type :=
| Called (c : call) (r : exn + string)
| Printed (s : string).

(** The outside world: the sibling modules and the little of the Python
    runtime that the exception handlers of [scp] rely on. *)
Class Runtime : Type := {
  World : Type;
  perform : call -> World -> (exn + string) * World;
  utf8_decode : string -> exn + string;
  repr_bytes : string -> string
}.

(** ** Observations on a trace *)

Definition is_endpoint_call (ev : event) : bool :=
  match ev with Called (c_init_endpoint _ _ _) _ => true | _ => false end.

Definition is_endpoint_call_for (h : string) (ev : event) : bool :=
  match ev with Called (c_init_endpoint _ h' _) _ => String.eqb h' h | _ => false end.

Definition is_token_call (ev : event) : bool :=
  match ev with Called (c_init_token _ _ _ _ _) _ => true | _ => false end.

Definition is_user_call (ev : event) : bool :=
  match ev with Called (c_init_user _ _ _) _ => true | _ => false end.

(** Endpoint, token and username resolution go to the remote API. *)
Definition is_network_call (ev : event) : bool :=
  is_endpoint_call ev || is_token_call ev || is_user_call ev.

Definition is_scp_get (ev : event) : bool :=
  match ev with Called (c_scp_get _ _ _ _ _ _ _ _) _ => true | _ => false end.

Definition is_transport (ev : event) : bool :=
  match ev with
  | Called (c_ssh_interactive _ _ _ _) _ => true
  | Called (c_ssh_exec _ _ _ _ _) _ => true
  | Called (c_scp_get _ _ _ _ _ _ _ _) _ => true
  | Called (c_scp_put _ _ _ _ _ _ _ _) _ => true
  | _ => false
  end.

(** An imported function ended by raising. *)
Definition is_raise (ev : event) : bool :=
  match ev with Called _ (inl _) => true | _ => false end.

Definition count (P : event -> bool) (t : list event) : nat :=
  List.length (filter P t).

(** The lines written to standard output, in order. *)
Fixpoint printed (t : list event) : list string :=
  match t with
  | [] => []
  | Printed s :: t' => s :: printed t'
  | Called _ _ :: t' => printed t'
  end.

(** ** Occurrences of a flag in a piece of command line *)

Fixpoint count_sub (needle hay : string) : nat :=
  match hay with
  | EmptyString => if String.prefix needle EmptyString then 1 else 0
  | String _ hay' =>
      ((if String.prefix needle hay then 1 else 0) + count_sub needle hay')%nat
  end.

(** ** Runs *)

Section Runs.

Context {R : Runtime}.

Definition M (A : Type) : Type := World -> (exn + A) * World * list event.

Definition ret {A : Type} (a : A) : M A := fun w => (inr a, w, []).

Definition raise {A : Type} (e : exn) : M A := fun w => (inl e, w, []).

Definition bind {A B : Type} (m : M A) (f : A -> M B) : M B := fun w =>
  match m w with
  | (inl e, w1, t1) => (inl e, w1, t1)
  | (inr a, w1, t1) =>
      match f a w1 with
      | (r, w2, t2) => (r, w2, (t1 ++ t2)%list)
      end
  end.

(** [try: body / except ... as e: handler e]; an exception raised by the
    handler is not caught again. *)
Definition try_except {A : Type} (body : M A) (handler : exn -> M A) : M A := fun w =>
  match body w with
  | (inr a, w1, t1) => (inr a, w1, t1)
  | (inl e, w1, t1) =>
      match handler e w1 with
      | (r, w2, t2) => (r, w2, (t1 ++ t2)%list)
      end
  end.

Definition lift {A : Type} (r : exn + A) : M A := fun w => (r, w, []).

Definition call_out (c : call) : M string := fun w =>
  match perform c w with
  | (r, w1) => (r, w1, [Called c r])
  end.

Definition print (s : string) : M unit := fun w => (inr tt, w, [Printed s]).

Definition result {A : Type} (o : (exn + A) * World * list event) : exn + A := fst (fst o).
Definition world {A : Type} (o : (exn + A) * World * list event) : World := snd (fst o).
Definition trace {A : Type} (o : (exn + A) * World * list event) : list event := snd o.

End Runs.

Declare Scope run_scope.
Delimit Scope run_scope with run.
Notation "x <- m ;; k" := (bind m (fun x => k))
  (at level 61, m at next level, right associativity) : run_scope.
Notation "m ;; k" := (bind m (fun _ => k))
  (at level 61, right associativity) : run_scope.
Local Open Scope run_scope.

(** ** The imported functions *)

Section Imports.

Context {R : Runtime}.

(** A call whose value the caller drops. *)
Definition call_proc (c : call) : M unit := _ <- call_out c ;; ret tt.

Definition init_endpoint (mc_endpoint : option string) (hostname : string)
    (verify : bool) : M string :=
  call_out (c_init_endpoint mc_endpoint hostname verify).

Definition init_token (token oa_account iss : option string) (mc_url : string)
    (verify : bool) : M string :=
  call_out (c_init_token token oa_account iss mc_url verify).

Definition init_user (mc_url access_token : string) (verify : bool) : M string :=
  call_out (c_init_user mc_url access_token verify).

Definition str_init_token (token oa_account iss : option string) : M string :=
  call_out (c_str_init_token token oa_account iss).

Definition ssh_interactive (hostname username access_token : string) (p : Z) : M unit :=
  call_proc (c_ssh_interactive hostname username access_token p).

Definition ssh_exec (hostname username access_token : string) (p : Z)
    (command : string) : M unit :=
  call_proc (c_ssh_exec hostname username access_token p command).

Definition scp_get (host username access_token : string) (port : Z)
    (src_path dest_path : string) (recursive preserve_times : bool) : M unit :=
  call_proc (c_scp_get host username access_token port src_path dest_path
               recursive preserve_times).

Definition scp_put (host username access_token : string) (port : Z)
    (src_path dest_path : string) (recursive preserve_times : bool) : M unit :=
  call_proc (c_scp_put host username access_token port src_path dest_path
               recursive preserve_times).

End Imports.

(** ** ssh *)

(** Lines 64-66: the options handed on to ssh. *)
Definition ssh_opts (p : Z) : string :=
  let ssh_opts := "" in
  if truthy_int p && negb (p =? SSH_PORT)
  then ssh_opts ++ " -p " ++ str_int p
  else ssh_opts.

(** Lines 67-69: the line that a dry run prints. *)
Definition ssh_sshpass_cmd (password ssh_opts username hostname : string)
    (command : option string) : string :=
  let sshpass_cmd :=
    "sshpass -P 'Access Token' -p " ++ password ++ " ssh " ++ ssh_opts
      ++ " " ++ username ++ "@" ++ hostname in
  if truthy_str command
  then sshpass_cmd ++ " '" ++ get command "None" ++ "'"
  else sshpass_cmd.

Section Ssh.

Context {R : Runtime}.

Definition ssh (mc_endpoint : option string) (verify : bool)
    (token oa_account iss : option string)
    (dry_run : bool) (p : Z) (hostname : string) (command : option string) : M unit :=
  try_except
    (mc_url <- init_endpoint mc_endpoint hostname verify ;;
     access_token <- init_token token oa_account iss mc_url verify ;;
     username <- init_user mc_url access_token verify ;;
     if dry_run then
       password <- str_init_token token oa_account iss ;;
       let ssh_opts := ssh_opts p in
       print (ssh_sshpass_cmd password ssh_opts username hostname command)
     else
       match command with
       | None => ssh_interactive hostname username access_token p
       | Some command => ssh_exec hostname username access_token p command
       end)
    (fun e => print (str_exn e)).

End Ssh.

(** ** scp *)

(** A parsed SOURCE or TARGET: the dict that the argument callbacks return;
    [None] in a field stands for a key that is missing (or, for the host,
    bound to None). *)
Record operand : Type := { host : option string; path : option string }.

(** Lines 97-103: the options handed on to scp. *)
Definition scp_opts (recursive preserve_times : bool) (port : Z) : string :=
  let scp_opts := "" in
  let scp_opts := if recursive then scp_opts ++ " -r" else scp_opts in
  let scp_opts := if preserve_times then scp_opts ++ " -p" else scp_opts in
  let scp_opts :=
    if truthy_int port && negb (port =? SSH_PORT)
    then scp_opts ++ " -P " ++ str_int port
    else scp_opts in
  scp_opts.

(** Line 104. *)
Definition scp_sshpass_cmd (password scp_opts : string) : string :=
  "sshpass -P 'Access Token' -p " ++ password ++ " scp " ++ scp_opts.

Definition no_remote_host : string :=
  "No remote host specified. Use regular cp instead.".

Definition between_remote_hosts : string :=
  "scp between remote hosts not yet supported.".

(** The local names that [scp] assigns more than once. *)
Record locals : Type := {
  access_token : option string;
  username : option string;
  sshpass_cmd : string
}.

Section Scp.

Context {R : Runtime}.

Definition read (name : string) (v : option string) : M string :=
  match v with
  | Some x => ret x
  | None => raise (UnboundLocalError name)
  end.

Variables (mc_endpoint : option string) (verify : bool)
          (token oa_account iss : option string)
          (dry_run : bool) (port : Z) (recursive preserve_times : bool).

(** Lines 110-112 and 118-120: endpoint, token and username of one host. *)
Definition resolve (h : string) (l : locals) : M locals :=
  endpoint <- init_endpoint mc_endpoint h verify ;;
  tok <- init_token token oa_account iss endpoint verify ;;
  user <- init_user endpoint tok verify ;;
  ret {| access_token := Some tok; username := Some user;
         sshpass_cmd := sshpass_cmd l |}.

Variables (dest_host : option string) (dest_path : string).

(** Lines 114-140: the body of the loop, for one source. *)
Definition scp_source (src : operand) (l : locals) : M locals :=
  let src_path := get (path src) "." in
  let src_host := host src in
  l <- match src_host with
       | Some h => resolve h l
       | None => ret l
       end ;;
  match src_host, dest_host with
  | None, None => raise (Exception no_remote_host)
  | Some _, Some _ => raise (Exception between_remote_hosts)
  | Some src_host, None =>
      if dry_run then
        user <- read "username" (username l) ;;
        ret {| access_token := access_token l; username := username l;
               sshpass_cmd := sshpass_cmd l ++ " " ++ user ++ "@" ++ src_host
                                ++ ":" ++ src_path |}
      else
        user <- read "username" (username l) ;;
        tok <- read "at" (access_token l) ;;
        scp_get src_host user tok port src_path dest_path recursive preserve_times ;;
        ret l
  | None, Some dest_host =>
      if dry_run then
        ret {| access_token := access_token l; username := username l;
               sshpass_cmd := sshpass_cmd l ++ " " ++ src_path |}
      else
        user <- read "username" (username l) ;;
        tok <- read "at" (access_token l) ;;
        scp_put dest_host user tok port src_path dest_path recursive preserve_times ;;
        ret l
  end.

(** Line 113: the loop. *)
Fixpoint scp_for (source : list operand) (l : locals) : M locals :=
  match source with
  | [] => ret l
  | src :: rest => l' <- scp_source src l ;; scp_for rest l'
  end.

(** Lines 141-146. *)
Definition scp_print (l : locals) : M unit :=
  if dry_run then
    match dest_host with
    | Some dest_host =>
        user <- read "username" (username l) ;;
        print (sshpass_cmd l ++ " " ++ user ++ "@" ++ dest_host ++ ":" ++ dest_path)
    | None => print (sshpass_cmd l ++ " " ++ dest_path)
    end
  else ret tt.

(** Lines 147-154. *)
Definition scp_except (e : exn) : M unit :=
  match e with
  | PermissionError _ filename =>
      name <- lift (decode utf8_decode filename) ;;
      print (name ++ ": Permission denied")
  | IsADirectoryError _ filename =>
      print (format repr_bytes filename ++ ": not a regular file")
  | FileNotFoundError _ filename =>
      print (format repr_bytes filename ++ ": No such file or directory")
  | Exception _ => print (str_exn e)
  end.

End Scp.

Section ScpCommand.

Context {R : Runtime}.

(** Lines 106-146: what stands under [try]. *)
Definition scp_try (mc_endpoint : option string) (verify : bool)
    (token oa_account iss : option string)
    (dry_run : bool) (port : Z) (recursive preserve_times : bool)
    (source : list operand) (target : operand) (l : locals) : M unit :=
  let dest_path := get (path target) "." in
  let dest_host := host target in
  l <- match dest_host with
       | Some h => resolve mc_endpoint verify token oa_account iss h l
       | None => ret l
       end ;;
  l <- scp_for mc_endpoint verify token oa_account iss dry_run port recursive
         preserve_times dest_host dest_path source l ;;
  scp_print dry_run dest_host dest_path l.

(** Lines 95-104: the start of the printed line, built before [try]. *)
Definition scp_dry_run (token oa_account iss : option string)
    (dry_run : bool) (port : Z) (recursive preserve_times : bool) : M locals :=
  if dry_run then
    password <- str_init_token token oa_account iss ;;
    let scp_opts := scp_opts recursive preserve_times port in
    ret {| access_token := None; username := None;
           sshpass_cmd := scp_sshpass_cmd password scp_opts |}
  else
    ret {| access_token := None; username := None; sshpass_cmd := "" |}.

Definition scp (mc_endpoint : option string) (verify : bool)
    (token oa_account iss : option string)
    (dry_run : bool) (port : Z) (recursive preserve_times : bool)
    (source : list operand) (target : operand) : M unit :=
  l <- scp_dry_run token oa_account iss dry_run port recursive preserve_times ;;
  try_except
    (scp_try mc_endpoint verify token oa_account iss dry_run port recursive
       preserve_times source target l)
    scp_except.

(** ** sftp *)

Definition sftp : M unit := print "Not implemented.".

End ScpCommand.

(** ** Option parsing *)

(** One option of the group "Access Token sources" as it reaches the
    parser: the value given on the command line and the value found in the
    environment variables of the option. *)
Record option_input : Type := { given : option string; envvar : option string }.

Definition option_value (o : option_input) : option string :=
  match given o with
  | Some v => Some v
  | None => envvar o
  end.

Definition is_given (o : option_input) : bool :=
  match given o with
  | Some _ => true
  | None => false
  end.

Definition UsageError (msg : string) : exn := Exception msg.

(** Modelled from the spec: the check of MutuallyExclusiveOptionGroup, the
    class of click_option_group that lines 18-20 put on the three options
    and that is not part of the source.  The spec has the three options
    mutually exclusive at parse time, while values that come from the
    environment may be present together. *)
Definition MutuallyExclusiveOptionGroup (group : list option_input) : exn + unit :=
  if (1 <? List.length (filter is_given group))%nat
  then inl (UsageError "Mutually exclusive options cannot be used at the same time.")
  else inr tt.

Section Cli.

Context {R : Runtime}.

(** Lines 12-36: the decorator; the function runs once the options are parsed. *)
Definition common_options {A : Type}
    (func : option string -> option string -> option string -> M A)
    (token oa_account iss : option_input) : M A :=
  lift (MutuallyExclusiveOptionGroup [token; oa_account; iss]) ;;
  func (option_value token) (option_value oa_account) (option_value iss).

Definition cli_ssh (mc_endpoint : option string) (verify : bool)
    (token oa_account iss : option_input)
    (dry_run : bool) (p : Z) (hostname : string) (command : option string) : M unit :=
  common_options
    (fun token oa_account iss =>
       ssh mc_endpoint verify token oa_account iss dry_run p hostname command)
    token oa_account iss.

Definition cli_scp (mc_endpoint : option string) (verify : bool)
    (token oa_account iss : option_input)
    (dry_run : bool) (port : Z) (recursive preserve_times : bool)
    (source : list operand) (target : operand) : M unit :=
  common_options
    (fun token oa_account iss =>
       scp mc_endpoint verify token oa_account iss dry_run port recursive
         preserve_times source target)
    token oa_account iss.

End Cli.

(** ** A runtime to run the commands on

    Every host but [down.example.org] answers; a token is found when one of
    the three sources is set; every transfer succeeds. *)

Definition oidc_token (account : string) : string := "`oidc-token " ++ account ++ "`".

Definition no_access_token : exn := Exception "No access token found".

Definition sample_perform (c : call) (w : unit) : (exn + string) * unit :=
  (match c with
   | c_init_endpoint (Some url) _ _ => inr url
   | c_init_endpoint None hostname _ =>
       if String.eqb hostname "down.example.org"
       then inl (Exception "No motley_cue service found on host")
       else inr ("https://" ++ hostname)
   | c_init_token (Some t) _ _ _ _ => inr t
   | c_init_token None (Some a) _ _ _ => inr ("token-of-" ++ a)
   | c_init_token None None (Some i) _ _ => inr ("token-of-" ++ i)
   | c_init_token None None None _ _ => inl no_access_token
   | c_init_user _ _ _ => inr "alice"
   | c_str_init_token (Some t) _ _ => inr t
   | c_str_init_token None (Some a) _ => inr (oidc_token a)
   | c_str_init_token None None (Some i) => inr (oidc_token i)
   | c_str_init_token None None None => inl no_access_token
   | _ => inr ""
   end, w).

Definition sample_runtime : Runtime := {|
  World := unit;
  perform := sample_perform;
  utf8_decode := fun b => inr b;
  repr_bytes := fun b => "b'" ++ b ++ "'"
|}.

Definition local_file (p : string) : operand := {| host := None; path := Some p |}.

Definition remote_file (h p : string) : operand := {| host := Some h; path := Some p |}.

(** ** Vocabulary of the statements *)

Definition is_remote (o : operand) : bool :=
  match host o with
  | Some _ => true
  | None => false
  end.

(** The operand names host [h]. *)
Definition names (h : string) (o : operand) : bool :=
  match host o with
  | Some h' => String.eqb h' h
  | None => false
  end.

(** Operands as they follow the options on a command line. *)
Fixpoint join_operands (ops : list string) : string :=
  match ops with
  | [] => ""
  | o :: ops' => " " ++ o ++ join_operands ops'
  end.

Fixpoint all_chars (P : ascii -> bool) (s : string) : bool :=
  match s with
  | EmptyString => true
  | String c s' => P c && all_chars P s'
  end.

Fixpoint occurs_char (x : ascii) (s : string) : bool :=
  match s with
  | EmptyString => false
  | String c s' => Ascii.eqb c x || occurs_char x s'
  end.

Definition is_number_char (c : ascii) : bool :=
  existsb (Ascii.eqb c) (list_ascii_of_string "-0123456789").

Definition indicator (c : bool) : nat := if c then 1%nat else 0%nat.

(** The message with which the loop of [scp] stops, if it stops: the first
    source that is on the same side as the target decides. *)
Fixpoint direction_error (source : list operand) (dest_host : option string)
    : option string :=
  match source with
  | [] => None
  | src :: rest =>
      match host src, dest_host with
      | None, None => Some no_remote_host
      | Some _, Some _ => Some between_remote_hosts
      | _, _ => direction_error rest dest_host
      end
  end.

(** The names that a remote target binds are bound. *)
Definition ready (dest_host : option string) (l : locals) : Prop :=
  dest_host <> None -> username l <> None /\ access_token l <> None.

(** The port test of lines 65 and 102. *)
Definition port_flag_needed (port : Z) : bool :=
  truthy_int port && negb (port =? SSH_PORT).

Section Bounds.

Context {R : Runtime}.

(** No run of [m] has more than [n] events that satisfy [P]. *)
Definition bounded {A : Type} (P : event -> bool) (n : nat) (m : M A) : Prop :=
  forall w, (count P (trace (m w)) <= n)%nat.

(** No imported function raised in the run. *)
Definition all_returned (t : list event) : Prop := count is_raise t = 0%nat.

(** C1 and C3 as the specification words them. *)
Definition no_network_call (t : list event) : Prop := count is_network_call t = 0%nat.

Definition resolved_once_per_host (t : list event) : Prop :=
  forall h, (count (is_endpoint_call_for h) t <= 1)%nat.

Definition no_transfer (t : list event) : Prop := count is_transport t = 0%nat.

End Bounds.

(** ** Vocabulary of the further properties *)

Definition is_printed (ev : event) : bool :=
  match ev with Printed _ => true | _ => false end.

(** The rendering of the password for the printed line. *)
Definition is_password_call (ev : event) : bool :=
  match ev with Called (c_str_init_token _ _ _) _ => true | _ => false end.

Definition is_scp_put (ev : event) : bool :=
  match ev with Called (c_scp_put _ _ _ _ _ _ _ _) _ => true | _ => false end.

(** The transport call of a real run of [ssh] (lines 72-75). *)
Definition ssh_transport_call (hostname user tok : string) (p : Z)
    (command : option string) : call :=
  match command with
  | None => c_ssh_interactive hostname user tok p
  | Some command => c_ssh_exec hostname user tok p command
  end.

(** What the three resolutions of one host return: endpoint, token, user. *)
Definition session : Type := (string * string * string)%type.

(** The three resolutions of the host of one remote source, with what they
    returned. *)
Definition resolve_events (mc_endpoint : option string) (verify : bool)
    (token oa_account iss : option string) (fetch : operand * session)
    : list event :=
  match fetch with
  | (src, (mc_url, tok, user)) =>
      [Called (c_init_endpoint mc_endpoint (get (host src) "") verify) (inr mc_url);
       Called (c_init_token token oa_account iss mc_url verify) (inr tok);
       Called (c_init_user mc_url tok verify) (inr user)]
  end.

(** The events by which a real run of [scp] fetches one remote source: the
    resolutions of its host and the call of scp_get with what they
    returned; [v] is what scp_get returned. *)
Definition fetch_events (mc_endpoint : option string) (verify : bool)
    (token oa_account iss : option string) (port : Z)
    (recursive preserve_times : bool) (dest_path : string)
    (fetch : operand * (session * string)) : list event :=
  match fetch with
  | (src, ((mc_url, tok, user), v)) =>
      [Called (c_init_endpoint mc_endpoint (get (host src) "") verify) (inr mc_url);
       Called (c_init_token token oa_account iss mc_url verify) (inr tok);
       Called (c_init_user mc_url tok verify) (inr user);
       Called (c_scp_get (get (host src) "") user tok port (get (path src) ".")
                 dest_path recursive preserve_times) (inr v)]
  end.

(** The event by which a real run of [scp] puts one local source; [v] is
    what scp_put returned. *)
Definition put_event (dest_host user tok : string) (port : Z)
    (recursive preserve_times : bool) (dest_path : string)
    (put : operand * string) : event :=
  match put with
  | (src, v) =>
      Called (c_scp_put dest_host user tok port (get (path src) ".") dest_path
                recursive preserve_times) (inr v)
  end.

(** What the handlers of lines 147-154 write for an exception, when they
    write. *)
Definition scp_error_line (utf8 : string -> exn + string)
    (repr : string -> string) (e : exn) : list string :=
  match e with
  | PermissionError _ filename =>
      match decode utf8 filename with
      | inr name => [name ++ ": Permission denied"]
      | inl _ => []
      end
  | IsADirectoryError _ filename => [format repr filename ++ ": not a regular file"]
  | FileNotFoundError _ filename =>
      [format repr filename ++ ": No such file or directory"]
  | Exception msg => [msg]
  end.

(** A remote source as a dry run writes it. *)
Definition remote_operand (fetch : operand * session) : string :=
  match fetch with
  | (src, (_, _, user)) =>
      user ++ "@" ++ get (host src) "" ++ ":" ++ get (path src) "."
  end.

(** A runtime in which transfers fail: like the sample, but missing.txt
    does not exist and secret.txt cannot be read. *)
Definition failing_perform (c : call) (w : unit) : (exn + string) * unit :=
  match c with
  | c_scp_put _ _ _ _ "missing.txt" _ _ _ =>
      (inl (FileNotFoundError "[Errno 2] No such file or directory: 'missing.txt'"
              (PyStr "missing.txt")), w)
  | c_scp_put _ _ _ _ "secret.txt" _ _ _ =>
      (inl (PermissionError "[Errno 13] Permission denied: b'secret.txt'"
              (PyBytes "secret.txt")), w)
  | _ => sample_perform c w
  end.

Definition failing_runtime : Runtime := {|
  World := unit;
  perform := failing_perform;
  utf8_decode := fun b => inr b;
  repr_bytes := fun b => "b'" ++ b ++ "'"
|}.

Section Propagation.

Context {R : Runtime}.

(** An exception raised by a call is the exception of the run. *)
Definition propagates {A : Type} (m : M A) : Prop :=
  forall w c e, In (Called c (inl e)) (trace (m w)) -> result (m w) = inl e.

(** The run writes nothing. *)
Definition silent {A : Type} (m : M A) : Prop :=
  forall w, printed (trace (m w)) = [].

(** The exception of a run was raised by one of its calls, or it is a
    plain Exception that the module raises itself. *)
Definition raised_by_call_or_plain {A : Type} (m : M A) : Prop :=
  forall w e,
    result (m w) = inl e ->
    (exists c, In (Called c (inl e)) (trace (m w))) \/ (exists msg, e = Exception msg).

End Propagation.

(** * Properties *)

(** ** Strings *)

Lemma append_assoc (a b c : string) : (a ++ b) ++ c = a ++ (b ++ c).
Proof.
  induction a as [|x a IH]; simpl; [reflexivity|].
  now rewrite IH.
Qed.

Lemma append_nil_r (a : string) : a ++ "" = a.
Proof.
  induction a as [|x a IH]; simpl; [reflexivity|].
  now rewrite IH.
Qed.

Lemma join_operands_app (xs ys : list string) :
  join_operands (xs ++ ys) = join_operands xs ++ join_operands ys.
Proof.
  induction xs as [|x xs IH]; simpl; [reflexivity|].
  rewrite IH. now rewrite append_assoc.
Qed.

Lemma occurs_char_all_chars (P : ascii -> bool) (x : ascii) (s : string) :
  all_chars P s = true -> P x = false -> occurs_char x s = false.
Proof.
  intros Hall Hx.
  induction s as [|c s IH]; simpl in *; [reflexivity|].
  apply andb_true_iff in Hall as [Hc Hs].
  rewrite (IH Hs), orb_false_r.
  destruct (Ascii.eqb_spec c x) as [->|]; [congruence|reflexivity].
Qed.

(** A two-character flag cannot start where its letter does not occur. *)
Lemma count_sub_absent (a x : ascii) (hay : string) :
  occurs_char x hay = false ->
  count_sub (String a (String x "")) hay = 0%nat.
Proof.
  induction hay as [|b hay IH]; intros Hocc; [reflexivity|].
  simpl in Hocc. apply orb_false_iff in Hocc as [Hb Hrest].
  change (count_sub (String a (String x "")) (String b hay))
    with ((if String.prefix (String a (String x "")) (String b hay) then 1 else 0)
          + count_sub (String a (String x "")) hay)%nat.
  rewrite (IH Hrest), Nat.add_0_r.
  simpl. destruct (ascii_dec a b) as [_|_]; [|reflexivity].
  destruct hay as [|c hay]; [reflexivity|].
  simpl in Hrest. apply orb_false_iff in Hrest as [Hc _].
  simpl. destruct (ascii_dec x c) as [->|_]; [|reflexivity].
  now rewrite Ascii.eqb_refl in Hc.
Qed.

Lemma string_of_uint_chars (d : Decimal.uint) :
  all_chars is_number_char (NilEmpty.string_of_uint d) = true.
Proof.
  induction d; simpl; auto.
Qed.

Lemma str_int_chars (n : Z) : all_chars is_number_char (str_int n) = true.
Proof.
  unfold str_int, NilZero.string_of_int, NilZero.string_of_uint.
  destruct (Z.to_int n) as [d|d]; destruct d; simpl;
    auto using string_of_uint_chars.
Qed.

(** The decimal form of a port holds none of the flags. *)
Lemma count_sub_str_int (a x : ascii) (n : Z) :
  is_number_char x = false ->
  count_sub (String a (String x "")) (str_int n) = 0%nat.
Proof.
  intros Hx. apply count_sub_absent.
  now apply occurs_char_all_chars with (P := is_number_char); [apply str_int_chars|].
Qed.

(** ** The option segments *)

Lemma ssh_opts_count_p (p : Z) :
  count_sub "-p" (ssh_opts p) = if port_flag_needed p then 1%nat else 0%nat.
Proof.
  unfold ssh_opts. fold (port_flag_needed p).
  destruct (port_flag_needed p); [|reflexivity].
  cbn -[str_int]. now rewrite count_sub_str_int.
Qed.

Lemma scp_opts_count_r (recursive preserve_times : bool) (port : Z) :
  count_sub "-r" (scp_opts recursive preserve_times port)
  = if recursive then 1%nat else 0%nat.
Proof.
  unfold scp_opts. fold (port_flag_needed port).
  destruct recursive, preserve_times, (port_flag_needed port);
    cbn -[str_int]; try rewrite count_sub_str_int; reflexivity.
Qed.

Lemma scp_opts_count_p (recursive preserve_times : bool) (port : Z) :
  count_sub "-p" (scp_opts recursive preserve_times port)
  = if preserve_times then 1%nat else 0%nat.
Proof.
  unfold scp_opts. fold (port_flag_needed port).
  destruct recursive, preserve_times, (port_flag_needed port);
    cbn -[str_int]; try rewrite count_sub_str_int; reflexivity.
Qed.

Lemma scp_opts_count_P (recursive preserve_times : bool) (port : Z) :
  count_sub "-P" (scp_opts recursive preserve_times port)
  = if port_flag_needed port then 1%nat else 0%nat.
Proof.
  unfold scp_opts. fold (port_flag_needed port).
  destruct recursive, preserve_times, (port_flag_needed port);
    cbn -[str_int]; try rewrite count_sub_str_int; reflexivity.
Qed.

(** ** Traces *)

Lemma count_app (P : event -> bool) (t1 t2 : list event) :
  count P (t1 ++ t2)%list = (count P t1 + count P t2)%nat.
Proof.
  unfold count. now rewrite filter_app, length_app.
Qed.

Lemma printed_app (t1 t2 : list event) :
  printed (t1 ++ t2)%list = (printed t1 ++ printed t2)%list.
Proof.
  induction t1 as [|[c r|s] t1 IH]; simpl; [reflexivity|assumption|].
  now rewrite IH.
Qed.

Lemma all_returned_app (t1 t2 : list event) :
  all_returned (t1 ++ t2)%list <-> all_returned t1 /\ all_returned t2.
Proof.
  unfold all_returned. rewrite count_app. lia.
Qed.

#[local] Arguments ssh_sshpass_cmd : simpl never.
#[local] Arguments scp_sshpass_cmd : simpl never.
#[local] Arguments str_int : simpl never.
#[local] Arguments ssh_opts : simpl never.
#[local] Arguments scp_opts : simpl never.

(** Case analysis on how the next call out of the module ends. *)
Ltac next_call :=
  match goal with
  | |- context [perform ?c ?w] =>
      let e := fresh "e" in
      let v := fresh "v" in
      let w' := fresh "w" in
      let E := fresh "E" in
      destruct (perform c w) as [[e|v] w'] eqn:E; simpl
  end.

(** Lay a run open down to the calls it makes. *)
Ltac open_run :=
  unfold ssh_interactive, ssh_exec, scp_get, scp_put, call_proc,
    init_endpoint, init_token, init_user, str_init_token, read, lift;
  unfold try_except, bind, call_out, print, ret, raise, result, world, trace.

(** A goal that assumes a trace without raise, of a run where a call raised. *)
Ltac raised :=
  repeat match goal with
         | |- context [scp_except ?e ?w] =>
             destruct (scp_except e w) as [[? ?] ?]; simpl
         end;
  match goal with
  | |- all_returned _ -> _ =>
      let H := fresh "H" in
      intros H; exfalso; revert H; unfold all_returned, count; simpl; discriminate
  end.

(** ** ssh *)

Section SshFacts.

Context {R : Runtime}.

Variables (mc_endpoint : option string) (verify : bool)
          (token oa_account iss : option string)
          (p : Z) (hostname : string) (command : option string).

(** X1: no exception leaves [ssh], whatever its calls do: the handler of
    line 76 takes them all. *)
Lemma ssh_returns (dry_run : bool) (w : World) :
  result (ssh mc_endpoint verify token oa_account iss dry_run p hostname command w)
  = inr tt.
Proof.
  unfold ssh. open_run.
  repeat next_call; try reflexivity;
    destruct dry_run; simpl; repeat next_call; try reflexivity;
    destruct command; simpl; repeat next_call; reflexivity.
Qed.

(** When every call returns, a dry run performs the three resolutions,
    renders the password and prints the command line. *)
Lemma ssh_dry_run_trace (w : World) :
  all_returned
    (trace (ssh mc_endpoint verify token oa_account iss true p hostname command w)) ->
  exists mc_url tok user password,
    trace (ssh mc_endpoint verify token oa_account iss true p hostname command w)
    = [Called (c_init_endpoint mc_endpoint hostname verify) (inr mc_url);
       Called (c_init_token token oa_account iss mc_url verify) (inr tok);
       Called (c_init_user mc_url tok verify) (inr user);
       Called (c_str_init_token token oa_account iss) (inr password);
       Printed (ssh_sshpass_cmd password (ssh_opts p) user hostname command)].
Proof.
  unfold ssh. open_run.
  repeat next_call; try raised.
  intros _. eauto.
Qed.

End SshFacts.

(** ** Counting events *)

Section BoundFacts.

Context {R : Runtime}.

Variable P : event -> bool.

Lemma bounded_weaken {A : Type} (n n' : nat) (m : M A) :
  (n <= n')%nat -> bounded P n m -> bounded P n' m.
Proof.
  intros Hle Hm w. specialize (Hm w). lia.
Qed.

Lemma bounded_ret {A : Type} (a : A) : bounded P 0 (ret a).
Proof.
  intros w. reflexivity.
Qed.

Lemma bounded_bind {A B : Type} (n k : nat) (m : M A) (f : A -> M B) :
  bounded P n m -> (forall a, bounded P k (f a)) -> bounded P (n + k) (bind m f).
Proof.
  intros Hm Hf w. specialize (Hm w). unfold bind.
  destruct (m w) as [[[e|a] w1] t1]; simpl in *; [lia|].
  specialize (Hf a w1).
  destruct (f a w1) as [[r w2] t2]; simpl in *.
  rewrite count_app. lia.
Qed.

Lemma bounded_try {A : Type} (n k : nat) (body : M A) (handler : exn -> M A) :
  bounded P n body -> (forall e, bounded P k (handler e)) ->
  bounded P (n + k) (try_except body handler).
Proof.
  intros Hm Hh w. specialize (Hm w). unfold try_except.
  destruct (body w) as [[[e|a] w1] t1]; simpl in *; [|lia].
  specialize (Hh e w1).
  destruct (handler e w1) as [[r w2] t2]; simpl in *.
  rewrite count_app. lia.
Qed.

Hypothesis P_printed : forall s, P (Printed s) = false.

Lemma bounded_scp_except (e : exn) : bounded P 0 (scp_except e).
Proof.
  intros w. destruct e as [msg f|msg f|msg f|msg]; unfold scp_except; open_run;
    unfold count; simpl; rewrite ?P_printed; try reflexivity.
  destruct (decode utf8_decode f); unfold count; simpl; rewrite ?P_printed; reflexivity.
Qed.

Variables (mc_endpoint : option string) (verify : bool)
          (token oa_account iss : option string)
          (dry_run : bool) (port : Z) (recursive preserve_times : bool).

Lemma bounded_scp_print (dest_host : option string) (dest_path : string) (l : locals) :
  bounded P 0 (scp_print dry_run dest_host dest_path l).
Proof.
  intros w. unfold scp_print.
  destruct dry_run; [|reflexivity].
  destruct dest_host; [destruct (username l)|]; open_run; unfold count; simpl;
    rewrite ?P_printed; reflexivity.
Qed.

Variable b : operand -> nat.

Lemma bounded_scp_for (dest_host : option string) (dest_path : string) :
  (forall src l,
     bounded P (b src)
       (scp_source mc_endpoint verify token oa_account iss dry_run port recursive
          preserve_times dest_host dest_path src l)) ->
  forall source l,
    bounded P (list_sum (map b source))
      (scp_for mc_endpoint verify token oa_account iss dry_run port recursive
         preserve_times dest_host dest_path source l).
Proof.
  intros Hsrc source.
  induction source as [|src rest IH]; intros l; simpl.
  - apply bounded_ret.
  - apply bounded_bind; [apply Hsrc|apply IH].
Qed.

Hypothesis P_str_init_token :
  forall r, P (Called (c_str_init_token token oa_account iss) r) = false.

(** A bound for the loop and one for the target add up to a bound for the
    command. *)
Lemma bounded_scp_loop (n k : nat) (source : list operand) (target : operand) :
  (forall h l, host target = Some h ->
     bounded P n (resolve mc_endpoint verify token oa_account iss h l)) ->
  (forall l,
     bounded P k
       (scp_for mc_endpoint verify token oa_account iss dry_run port recursive
          preserve_times (host target) (get (path target) ".") source l)) ->
  bounded P (n + k)
    (scp mc_endpoint verify token oa_account iss dry_run port recursive
       preserve_times source target).
Proof.
  intros Htarget Hloop. unfold scp.
  apply (bounded_bind 0 (n + k)).
  - intros w. unfold scp_dry_run. destruct dry_run; [|reflexivity].
    open_run. next_call; unfold count; simpl; now rewrite P_str_init_token.
  - intros l0.
    replace (n + k)%nat with ((n + (k + 0)) + 0)%nat by lia.
    apply bounded_try; [|apply bounded_scp_except].
    unfold scp_try. apply bounded_bind.
    + destruct (host target) as [h|] eqn:Hh.
      * now apply Htarget.
      * apply bounded_weaken with (n := 0%nat); [lia|apply bounded_ret].
    + intros l1. apply bounded_bind.
      * apply Hloop.
      * intros l2. apply bounded_scp_print.
Qed.

(** A bound for each source and one for the target add up to a bound for
    the command. *)
Lemma bounded_scp (n : nat) (source : list operand) (target : operand) :
  (forall h l, host target = Some h ->
     bounded P n (resolve mc_endpoint verify token oa_account iss h l)) ->
  (forall src l,
     bounded P (b src)
       (scp_source mc_endpoint verify token oa_account iss dry_run port recursive
          preserve_times (host target) (get (path target) ".") src l)) ->
  bounded P (n + list_sum (map b source))
    (scp mc_endpoint verify token oa_account iss dry_run port recursive
       preserve_times source target).
Proof.
  intros Htarget Hsrc. apply bounded_scp_loop; [assumption|].
  intros l. now apply bounded_scp_for.
Qed.

End BoundFacts.

(** ** One host, one source *)

(** Every run of a short piece of [scp], call by call. *)
Ltac every_run :=
  open_run; simpl; repeat next_call; unfold count; simpl;
  repeat match goal with
         | |- context [String.eqb ?a ?b] => destruct (String.eqb a b); simpl
         end;
  try lia.

Section SourceFacts.

Context {R : Runtime}.

Variables (mc_endpoint : option string) (verify : bool)
          (token oa_account iss : option string)
          (dry_run : bool) (port : Z) (recursive preserve_times : bool).

Lemma resolve_endpoint_calls (h h' : string) (l : locals) :
  bounded (is_endpoint_call_for h) (indicator (String.eqb h' h))
    (resolve mc_endpoint verify token oa_account iss h' l).
Proof.
  intros w. unfold resolve, indicator. every_run.
Qed.

Lemma resolve_token_calls (h : string) (l : locals) :
  bounded is_token_call 1 (resolve mc_endpoint verify token oa_account iss h l).
Proof.
  intros w. unfold resolve. every_run.
Qed.

Lemma resolve_user_calls (h : string) (l : locals) :
  bounded is_user_call 1 (resolve mc_endpoint verify token oa_account iss h l).
Proof.
  intros w. unfold resolve. every_run.
Qed.

Lemma resolve_transport (h : string) (l : locals) :
  bounded is_transport 0 (resolve mc_endpoint verify token oa_account iss h l).
Proof.
  intros w. unfold resolve. every_run.
Qed.

Variables (dest_host : option string) (dest_path : string).

Let scp_source' :=
  scp_source mc_endpoint verify token oa_account iss dry_run port recursive
    preserve_times dest_host dest_path.

Lemma scp_source_endpoint_calls (h : string) (src : operand) (l : locals) :
  bounded (is_endpoint_call_for h) (indicator (names h src)) (scp_source' src l).
Proof.
  intros w. subst scp_source'. unfold scp_source, resolve, names, indicator.
  destruct src as [[sh|] sp], l as [[tok|] [user|] cmd], dest_host, dry_run;
    every_run.
Qed.

Lemma scp_source_token_calls (src : operand) (l : locals) :
  bounded is_token_call (indicator (is_remote src)) (scp_source' src l).
Proof.
  intros w. subst scp_source'. unfold scp_source, resolve, is_remote, indicator.
  destruct src as [[sh|] sp], l as [[tok|] [user|] cmd], dest_host, dry_run;
    every_run.
Qed.

Lemma scp_source_user_calls (src : operand) (l : locals) :
  bounded is_user_call (indicator (is_remote src)) (scp_source' src l).
Proof.
  intros w. subst scp_source'. unfold scp_source, resolve, is_remote, indicator.
  destruct src as [[sh|] sp], l as [[tok|] [user|] cmd], dest_host, dry_run;
    every_run.
Qed.

(** One source, at most one transfer. *)
Lemma scp_source_transport (src : operand) (l : locals) :
  bounded is_transport 1 (scp_source' src l).
Proof.
  intros w. subst scp_source'. unfold scp_source, resolve.
  destruct src as [[sh|] sp], l as [[tok|] [user|] cmd], dest_host, dry_run;
    every_run.
Qed.

End SourceFacts.

(** ** Sequencing *)

Section BindFacts.

Context {R : Runtime}.

Lemma bind_ret_l {A B : Type} (a : A) (f : A -> M B) (w : World) :
  bind (ret a) f w = f a w.
Proof.
  unfold bind, ret. now destruct (f a w) as [[r w1] t1].
Qed.

Lemma bind_assoc {A B C : Type} (m : M A) (f : A -> M B) (g : B -> M C) (w : World) :
  bind (bind m f) g w = bind m (fun a => bind (f a) g) w.
Proof.
  unfold bind.
  destruct (m w) as [[[e|a] w1] t1]; [reflexivity|].
  destruct (f a w1) as [[[e|b] w2] t2]; [reflexivity|].
  destruct (g b w2) as [[r w3] t3].
  now rewrite app_assoc.
Qed.

Lemma bind_ext {A B : Type} (m : M A) (f g : A -> M B) (w : World) :
  (forall a w', f a w' = g a w') -> bind m f w = bind m g w.
Proof.
  intros H. unfold bind.
  destruct (m w) as [[[e|a] w1] t1]; [reflexivity|].
  now rewrite H.
Qed.

End BindFacts.

(** ** The loop *)

Section LoopFacts.

Context {R : Runtime}.

Variables (mc_endpoint : option string) (verify : bool)
          (token oa_account iss : option string)
          (dry_run : bool) (port : Z) (recursive preserve_times : bool)
          (dest_host : option string) (dest_path : string).

Let scp_source' :=
  scp_source mc_endpoint verify token oa_account iss dry_run port recursive
    preserve_times dest_host dest_path.

Let scp_for' :=
  scp_for mc_endpoint verify token oa_account iss dry_run port recursive
    preserve_times dest_host dest_path.

Lemma scp_for_app (xs ys : list operand) (l : locals) (w : World) :
  scp_for' (xs ++ ys)%list l w = bind (scp_for' xs l) (scp_for' ys) w.
Proof.
  subst scp_for'. revert l w.
  induction xs as [|x xs IH]; intros l w; simpl.
  - now rewrite bind_ret_l.
  - rewrite bind_assoc. apply bind_ext. intros l1 w1. apply IH.
Qed.

(** What one source does when every call returns. *)
Lemma scp_source_returned (src : operand) (l : locals) (w : World) :
  ready dest_host l ->
  all_returned (trace (scp_source' src l w)) ->
  printed (trace (scp_source' src l w)) = [] /\
  match direction_error [src] dest_host with
  | Some msg => result (scp_source' src l w) = inl (Exception msg)
  | None =>
      exists l', result (scp_source' src l w) = inr l' /\ ready dest_host l' /\
        if dry_run
        then exists op, sshpass_cmd l' = sshpass_cmd l ++ join_operands [op]
        else True
  end.
Proof.
  subst scp_source'. unfold scp_source, resolve, ready.
  destruct src as [[sh|] sp], dest_host as [dh|], dry_run; simpl; intros Hl.
  all: try (destruct Hl as [Hu Ha]; [discriminate|];
            destruct l as [[tok|] [user|] cmd]; simpl in *; try congruence).
  all: open_run; simpl; repeat next_call; try raised; intros _.
  all: split; try reflexivity.
  all: eexists; split; [reflexivity|]; split; simpl;
         try (intros _; split; discriminate); try (intros H; now destruct H);
         try exact I.
  all: eexists; rewrite append_nil_r; reflexivity.
Qed.

Lemma direction_error_cons (src : operand) (rest : list operand) :
  direction_error (src :: rest) dest_host
  = match direction_error [src] dest_host with
    | Some msg => Some msg
    | None => direction_error rest dest_host
    end.
Proof.
  simpl. now destruct (host src), dest_host.
Qed.

(** What the loop does when every call returns: nothing is printed, and it
    ends with the direction error of the operands or runs to its end. *)
Lemma scp_for_returned (source : list operand) :
  forall (l : locals) (w : World),
  ready dest_host l ->
  all_returned (trace (scp_for' source l w)) ->
  printed (trace (scp_for' source l w)) = [] /\
  match direction_error source dest_host with
  | Some msg => result (scp_for' source l w) = inl (Exception msg)
  | None =>
      exists l', result (scp_for' source l w) = inr l' /\ ready dest_host l' /\
        if dry_run
        then exists ops, List.length ops = List.length source /\
               sshpass_cmd l' = sshpass_cmd l ++ join_operands ops
        else True
  end.
Proof.
  induction source as [|src rest IH]; intros l w Hl Hret.
  - split; [reflexivity|]. exists l. split; [reflexivity|]. split; [assumption|].
    destruct dry_run; [|exact I]. exists []. now rewrite append_nil_r.
  - rewrite direction_error_cons.
    pose proof (scp_source_returned src l w Hl) as Hsrc.
    remember (direction_error [src] dest_host) as d eqn:Hd. clear Hd.
    subst scp_for' scp_source'. simpl in *. unfold bind in *.
    destruct (scp_source _ _ _ _ _ _ _ _ _ _ _ src l w) as [[[e|l1] w1] t1].
    + destruct (Hsrc Hret) as [Hp Hres]. split; [assumption|].
      destruct d; [assumption|].
      destruct Hres as (l' & Hl' & _). discriminate.
    + specialize (IH l1 w1).
      destruct (scp_for _ _ _ _ _ _ _ _ _ _ _ rest l1 w1) as [[r2 w2] t2].
      unfold trace, result in *. simpl in *.
      apply all_returned_app in Hret as [Hret1 Hret2].
      destruct (Hsrc Hret1) as [Hp Hres].
      destruct d; [discriminate|].
      destruct Hres as (l' & Hl' & Hready & Hcmd). injection Hl' as <-.
      destruct (IH Hready Hret2) as [Hp2 Hres2].
      rewrite printed_app, Hp, Hp2. split; [reflexivity|].
      destruct (direction_error rest dest_host); [assumption|].
      destruct Hres2 as (l2 & Hl2 & Hready2 & Hcmd2).
      exists l2. split; [assumption|]. split; [assumption|].
      destruct dry_run; [|exact I].
      destruct Hcmd as (op & Hop). destruct Hcmd2 as (ops & Hlen & Hops).
      exists (op :: ops). split; [simpl; now rewrite Hlen|].
      rewrite Hops, Hop, append_nil_r, append_assoc. reflexivity.
Qed.

End LoopFacts.

(** ** The command *)

Section CommandFacts.

Context {R : Runtime}.

Variables (mc_endpoint : option string) (verify : bool)
          (token oa_account iss : option string)
          (dry_run : bool) (port : Z) (recursive preserve_times : bool).

Lemma resolve_returned (h : string) (l : locals) (w : World) :
  all_returned (trace (resolve mc_endpoint verify token oa_account iss h l w)) ->
  printed (trace (resolve mc_endpoint verify token oa_account iss h l w)) = [] /\
  exists l', result (resolve mc_endpoint verify token oa_account iss h l w) = inr l' /\
    username l' <> None /\ access_token l' <> None /\
    sshpass_cmd l' = sshpass_cmd l.
Proof.
  unfold resolve. open_run. repeat next_call; try raised.
  intros _. split; [reflexivity|].
  eexists. split; [reflexivity|]. simpl. repeat split; discriminate.
Qed.

Variables (source : list operand) (target : operand).

Let scp_try' :=
  scp_try mc_endpoint verify token oa_account iss dry_run port recursive
    preserve_times source target.

(** What stands under [try], when every call returns. *)
Lemma scp_try_returned (l : locals) (w : World) :
  all_returned (trace (scp_try' l w)) ->
  match direction_error source (host target) with
  | Some msg =>
      result (scp_try' l w) = inl (Exception msg) /\ printed (trace (scp_try' l w)) = []
  | None =>
      result (scp_try' l w) = inr tt /\
      if dry_run
      then exists ops, List.length ops = S (List.length source) /\
             printed (trace (scp_try' l w)) = [sshpass_cmd l ++ join_operands ops]
      else printed (trace (scp_try' l w)) = []
  end.
Proof.
  subst scp_try'. unfold scp_try.
  set (first :=
         match host target with
         | Some h => resolve mc_endpoint verify token oa_account iss h l
         | None => ret l
         end).
  assert (Hfirst : forall w,
             all_returned (trace (first w)) ->
             printed (trace (first w)) = [] /\
             exists l', result (first w) = inr l' /\ ready (host target) l' /\
               sshpass_cmd l' = sshpass_cmd l).
  { intros w0 H. subst first. destruct (host target) as [h|].
    - destruct (resolve_returned h l w0 H) as (Hp & l' & Hr & Hu & Ha & Hc).
      split; [assumption|]. exists l'. repeat split; assumption.
    - split; [reflexivity|]. exists l. repeat split; intros C; now elim C. }
  clearbody first. specialize (Hfirst w).
  unfold bind.
  destruct (first w) as [[[e|l1] w1] t1]; unfold trace, result in *; simpl in *.
  { intros H. destruct (Hfirst H) as (_ & l' & Hr & _). discriminate. }
  pose proof (scp_for_returned mc_endpoint verify token oa_account iss dry_run
                port recursive preserve_times (host target)
                (get (path target) ".") source l1 w1) as Hloop.
  destruct (scp_for _ _ _ _ _ _ _ _ _ _ _ source l1 w1) as [[[e|l2] w2] t2];
    unfold trace, result in *; simpl in *.
  - intros H. apply all_returned_app in H as [H1 H2].
    destruct (Hfirst H1) as (Hp1 & l' & Hr & Hready & Hcmd). injection Hr as <-.
    destruct (Hloop Hready H2) as [Hp2 Hres].
    destruct (direction_error source (host target)).
    + injection Hres as ->. split; [reflexivity|].
      now rewrite printed_app, Hp1, Hp2.
    + destruct Hres as (l' & Hl' & _). discriminate.
  - destruct (scp_print dry_run (host target) (get (path target) ".") l2 w2)
      as [[r3 w3] t3] eqn:Eprint.
    simpl. intros H.
    apply all_returned_app in H as [H1 H]. apply all_returned_app in H as [H2 H3].
    destruct (Hfirst H1) as (Hp1 & l' & Hr & Hready & Hcmd). injection Hr as <-.
    destruct (Hloop Hready H2) as [Hp2 Hres].
    destruct (direction_error source (host target)); [discriminate|].
    destruct Hres as (l' & Hl' & Hready2 & Hops). injection Hl' as <-.
    rewrite !printed_app, Hp1, Hp2. simpl.
    unfold scp_print in Eprint. destruct dry_run.
    + destruct Hops as (ops & Hlen & Hops).
      destruct (host target) as [dh|].
      * destruct Hready2 as [Hu _]; [discriminate|].
        destruct (username l2) as [user|]; [|congruence].
        revert Eprint. open_run. simpl. intros [= <- <- <-].
        split; [reflexivity|].
        exists (ops ++ [(user ++ "@" ++ dh ++ ":" ++ get (path target) ".")%string])%list.
        split; [rewrite length_app; simpl; lia|].
        rewrite join_operands_app, Hops, Hcmd. simpl.
        now rewrite append_nil_r, append_assoc.
      * revert Eprint. open_run. intros [= <- <- <-].
        split; [reflexivity|].
        exists (ops ++ [get (path target) "."])%list.
        split; [rewrite length_app; simpl; lia|].
        rewrite join_operands_app, Hops, Hcmd. simpl.
        now rewrite append_nil_r, append_assoc.
    + revert Eprint. open_run. intros [= <- <- <-]. now split.
Qed.

Let scp' :=
  scp mc_endpoint verify token oa_account iss dry_run port recursive
    preserve_times source target.

(** The whole command, when every call returns: no exception leaves it and
    it prints the direction error of the operands or, in a dry run, the
    command line, whose password is what [str_init_token] gave. *)
Lemma scp_returned (w : World) :
  all_returned (trace (scp' w)) ->
  result (scp' w) = inr tt /\
  match direction_error source (host target) with
  | Some msg => printed (trace (scp' w)) = [msg]
  | None =>
      if dry_run
      then exists password ops,
             fst (perform (c_str_init_token token oa_account iss) w) = inr password /\
             List.length ops = S (List.length source) /\
             printed (trace (scp' w))
             = [scp_sshpass_cmd password (scp_opts recursive preserve_times port)
                  ++ join_operands ops]
      else printed (trace (scp' w)) = []
  end.
Proof.
  subst scp'. unfold scp, scp_dry_run.
  assert (Htry : forall l w0 t0,
             printed t0 = [] ->
             all_returned
               (t0 ++ trace (try_except
                         (scp_try mc_endpoint verify token oa_account iss dry_run
                            port recursive preserve_times source target l)
                         scp_except w0))%list ->
             let o := try_except
                        (scp_try mc_endpoint verify token oa_account iss dry_run
                           port recursive preserve_times source target l)
                        scp_except w0 in
             result o = inr tt /\
             match direction_error source (host target) with
             | Some msg => printed (t0 ++ trace o)%list = [msg]
             | None =>
                 if dry_run
                 then exists ops, List.length ops = S (List.length source) /\
                        printed (t0 ++ trace o)%list
                        = [sshpass_cmd l ++ join_operands ops]
                 else printed (t0 ++ trace o)%list = []
             end).
  { intros l w0 t0 Ht0 H. apply all_returned_app in H as [_ H]. revert H.
    pose proof (scp_try_returned l w0) as Hbody. revert Hbody.
    subst scp_try'. unfold try_except.
    destruct (scp_try _ _ _ _ _ _ _ _ _ _ _ l w0) as [[[e|[]] w1] t1];
      unfold trace, result; simpl; intros Hbody.
    - destruct (scp_except e w1) as [[r2 w2] t2] eqn:Ehandler. simpl. intros H.
      apply all_returned_app in H as [H1 _]. specialize (Hbody H1).
      destruct (direction_error source (host target)) as [msg|].
      + destruct Hbody as [[= ->] Hp]. revert Ehandler.
        unfold scp_except. open_run. simpl. intros [= <- <- <-].
        split; [reflexivity|]. now rewrite !printed_app, Ht0, Hp.
      + destruct Hbody as [Hbody _]. discriminate.
    - intros H. specialize (Hbody H). split; [reflexivity|].
      destruct (direction_error source (host target)) as [msg|].
      + destruct Hbody as [Hbody _]. discriminate.
      + destruct Hbody as [_ Hbody]. destruct dry_run.
        * destruct Hbody as (ops & Hlen & Hp). exists ops.
          split; [assumption|]. now rewrite printed_app, Ht0, Hp.
        * now rewrite printed_app, Ht0, Hbody. }
  destruct dry_run.
  - unfold bind, str_init_token, call_out, ret.
    destruct (perform (c_str_init_token token oa_account iss) w) as [[e|password] w0];
      simpl; [raised|].
    specialize (Htry {| access_token := None; username := None;
                        sshpass_cmd :=
                          scp_sshpass_cmd password
                            (scp_opts recursive preserve_times port) |} w0
                  [Called (c_str_init_token token oa_account iss) (inr password)]
                  eq_refl).
    destruct (try_except _ _ w0) as [[r1 w1] t1]. unfold trace, result in *.
    simpl in *. intros H. destruct (Htry H) as [Hr Hp]. split; [assumption|].
    destruct (direction_error source (host target)); [assumption|].
    destruct Hp as (ops & Hlen & Hp). exists password, ops. now repeat split.
  - unfold bind, ret.
    specialize (Htry {| access_token := None; username := None; sshpass_cmd := "" |}
                  w [] eq_refl).
    destruct (try_except _ _ w) as [[r1 w1] t1]. unfold trace, result in *.
    simpl in *. intros H. exact (Htry H).
Qed.

End CommandFacts.

(** ** Copies that the loop refuses *)

Lemma list_sum_indicator {A : Type} (f : A -> bool) (xs : list A) :
  list_sum (map (fun x => indicator (f x)) xs) = List.length (filter f xs).
Proof.
  induction xs as [|x xs IH]; simpl; [reflexivity|].
  rewrite IH. now destruct (f x).
Qed.

Lemma list_sum_ones {A : Type} (xs : list A) :
  list_sum (map (fun _ => 1%nat) xs) = List.length xs.
Proof.
  induction xs as [|x xs IH]; simpl; [reflexivity|]. now rewrite IH.
Qed.

Lemma list_sum_zeros {A : Type} (xs : list A) :
  list_sum (map (fun _ => 0%nat) xs) = 0%nat.
Proof.
  induction xs as [|x xs IH]; simpl; [reflexivity|]. assumption.
Qed.

Lemma direction_error_between (pre post : list operand) (s : operand) (dh sh : string) :
  Forall (fun x => host x = None) pre ->
  host s = Some sh ->
  direction_error (pre ++ s :: post) (Some dh) = Some between_remote_hosts.
Proof.
  intros Hpre Hs. induction Hpre as [|x pre Hx _ IH]; simpl.
  - now rewrite Hs.
  - now rewrite Hx.
Qed.

Section DirectionFacts.

Context {R : Runtime}.

Variables (mc_endpoint : option string) (verify : bool)
          (token oa_account iss : option string)
          (dry_run : bool) (port : Z) (recursive preserve_times : bool)
          (dest_path : string).

(** Nothing is fetched for a remote target. *)
Lemma scp_source_no_get (dh : string) (src : operand) (l : locals) :
  bounded is_scp_get 0
    (scp_source mc_endpoint verify token oa_account iss dry_run port recursive
       preserve_times (Some dh) dest_path src l).
Proof.
  intros w. unfold scp_source, resolve.
  destruct src as [[sh|] sp], l as [[tok|] [user|] cmd], dry_run; every_run.
Qed.

Lemma resolve_no_get (h : string) (l : locals) :
  bounded is_scp_get 0 (resolve mc_endpoint verify token oa_account iss h l).
Proof.
  intros w. unfold resolve. every_run.
Qed.

(** A dry run transfers nothing. *)
Lemma scp_source_dry_run (dest_host : option string) (src : operand) (l : locals) :
  bounded is_transport 0
    (scp_source mc_endpoint verify token oa_account iss true port recursive
       preserve_times dest_host dest_path src l).
Proof.
  intros w. unfold scp_source, resolve.
  destruct src as [[sh|] sp], l as [[tok|] [user|] cmd], dest_host; every_run.
Qed.

(** A remote source for a remote target stops the loop before any transfer. *)
Lemma scp_source_between (dh sh : string) (src : operand) (l : locals) (w : World) :
  host src = Some sh ->
  exists e w' t,
    scp_source mc_endpoint verify token oa_account iss dry_run port recursive
      preserve_times (Some dh) dest_path src l w = (inl e, w', t) /\
    count is_transport t = 0%nat.
Proof.
  intros Hs. unfold scp_source, resolve. rewrite Hs.
  open_run. simpl. repeat next_call; eauto.
Qed.

(** Before the first remote source, a remote target sees one transfer for
    each source at most, and none from then on. *)
Lemma scp_for_between (dh sh : string) (pre post : list operand) (s : operand)
    (l : locals) :
  host s = Some sh ->
  bounded is_transport (List.length pre)
    (scp_for mc_endpoint verify token oa_account iss dry_run port recursive
       preserve_times (Some dh) dest_path (pre ++ s :: post) l).
Proof.
  intros Hs w. rewrite scp_for_app.
  replace (List.length pre) with (list_sum (map (fun _ => 1%nat) pre) + 0)%nat
    by (rewrite list_sum_ones; lia).
  apply bounded_bind.
  - apply bounded_scp_for. intros src l0. apply scp_source_transport.
  - intros l1 w1. simpl. unfold bind.
    destruct (scp_source_between dh sh s l1 w1 Hs) as (e & w' & t & Hrun & Ht).
    rewrite Hrun. unfold trace. simpl. lia.
Qed.

End DirectionFacts.

Section DryRunFacts.

Context {R : Runtime}.

(** A dry run of scp transfers nothing. *)
Lemma scp_dry_run_no_transfer
    (mc_endpoint : option string) (verify : bool)
    (token oa_account iss : option string)
    (port : Z) (recursive preserve_times : bool)
    (source : list operand) (target : operand) (w : World) :
  no_transfer
    (trace (scp mc_endpoint verify token oa_account iss true port recursive
              preserve_times source target w)).
Proof.
  pose proof (bounded_scp is_transport (fun _ => eq_refl)
                mc_endpoint verify token oa_account iss true port recursive
                preserve_times (fun _ => 0%nat)
                (fun _ => eq_refl) 0%nat source target) as Hb.
  rewrite list_sum_zeros in Hb. unfold no_transfer.
  enough (count is_transport
            (trace (scp mc_endpoint verify token oa_account iss true port
                      recursive preserve_times source target w)) <= 0)%nat by lia.
  apply Hb.
  - intros h l _. apply resolve_transport.
  - intros src l. apply scp_source_dry_run.
Qed.

End DryRunFacts.

(** * The claims *)

Section Claims.

Context {R : Runtime}.

(** C9: every run of the sftp subcommand returns normally, leaves the world
    as it was and has one single event, the line "Not implemented." on
    standard output: no call to the remote API, no transport, no other
    output. *)
Theorem sftp_not_implemented (w : World) :
  sftp w = (inr tt, w, [Printed "Not implemented."]).
Proof.
  reflexivity.
Qed.

(** C7: when --token, --oa-account and --iss are all three given on the
    command line, ssh and scp end with the usage error of the option group
    before the subcommand starts: the world is untouched and the trace is
    empty, so no endpoint, token or username was resolved. *)
Theorem three_sources_fail_at_parsing
    (mc_endpoint : option string) (verify : bool)
    (token oa_account iss : option_input) (dry_run : bool)
    (p : Z) (hostname : string) (command : option string)
    (port : Z) (recursive preserve_times : bool)
    (source : list operand) (target : operand) (w : World) :
  is_given token = true ->
  is_given oa_account = true ->
  is_given iss = true ->
  exists msg,
    cli_ssh mc_endpoint verify token oa_account iss dry_run p hostname command w
    = (inl (UsageError msg), w, []) /\
    cli_scp mc_endpoint verify token oa_account iss dry_run port recursive
      preserve_times source target w
    = (inl (UsageError msg), w, []) /\
    no_network_call
      (trace (cli_ssh mc_endpoint verify token oa_account iss dry_run p hostname
                command w)) /\
    no_network_call
      (trace (cli_scp mc_endpoint verify token oa_account iss dry_run port
                recursive preserve_times source target w)).
Proof.
  intros Ht Ho Hi.
  unfold cli_ssh, cli_scp, common_options, MutuallyExclusiveOptionGroup.
  simpl. rewrite Ht, Ho, Hi. simpl.
  eexists. repeat split; reflexivity.
Qed.

(** C2, at the place where the code departs from it: in a dry run of scp
    an exception of str_init_token (line 96) is raised before the try of
    line 105 is entered; it leaves the command and nothing is printed. *)
Theorem scp_dry_run_error_escapes
    (mc_endpoint : option string) (verify : bool)
    (token oa_account iss : option string)
    (port : Z) (recursive preserve_times : bool)
    (source : list operand) (target : operand) (w w' : World) (e : exn) :
  perform (c_str_init_token token oa_account iss) w = (inl e, w') ->
  scp mc_endpoint verify token oa_account iss true port recursive preserve_times
    source target w
  = (inl e, w', [Called (c_str_init_token token oa_account iss) (inl e)]).
Proof.
  intros H. unfold scp, scp_dry_run. open_run. now rewrite H.
Qed.

(** C1, amended: a dry run of scp with -r, -p and -P 2222, a local source
    and a remote target has the option segment " -r -p -P 2222", in which
    each flag stands once and in this order; it transfers nothing; and
    when every call returns it renders the password, resolves endpoint,
    token and username of the target host, once each and in this order,
    and then prints the command line. *)
Theorem scp_dry_run_flags_once
    (mc_endpoint : option string) (verify : bool)
    (token oa_account iss : option string)
    (src_path : option string) (h : string) (dest_path : option string)
    (w : World) :
  scp_opts true true 2222 = " -r -p -P 2222" /\
  count_sub "-r" (scp_opts true true 2222) = 1%nat /\
  count_sub "-p" (scp_opts true true 2222) = 1%nat /\
  count_sub "-P" (scp_opts true true 2222) = 1%nat /\
  no_transfer
    (trace (scp mc_endpoint verify token oa_account iss true 2222 true true
              [{| host := None; path := src_path |}]
              {| host := Some h; path := dest_path |} w)) /\
  (all_returned
     (trace (scp mc_endpoint verify token oa_account iss true 2222 true true
               [{| host := None; path := src_path |}]
               {| host := Some h; path := dest_path |} w)) ->
   exists password mc_url tok user,
     trace (scp mc_endpoint verify token oa_account iss true 2222 true true
              [{| host := None; path := src_path |}]
              {| host := Some h; path := dest_path |} w)
     = [Called (c_str_init_token token oa_account iss) (inr password);
        Called (c_init_endpoint mc_endpoint h verify) (inr mc_url);
        Called (c_init_token token oa_account iss mc_url verify) (inr tok);
        Called (c_init_user mc_url tok verify) (inr user);
        Printed
          (scp_sshpass_cmd password " -r -p -P 2222"
             ++ join_operands
                  [get src_path ".";
                   user ++ "@" ++ h ++ ":" ++ get dest_path "."])]).
Proof.
  repeat (split; [reflexivity|]).
  split.
  - apply scp_dry_run_no_transfer.
  - unfold scp, scp_dry_run, scp_try, resolve. simpl.
    unfold scp_source, scp_print. open_run. simpl.
    repeat next_call; try raised.
    intros _. exists v, v0, v1, v2. do 5 f_equal.
    change (scp_opts true true 2222) with " -r -p -P 2222".
    rewrite append_nil_r, !append_assoc. reflexivity.
Qed.

(** C3, amended: endpoint, token and username are resolved at most once
    for each operand that names a host, the target and every source
    counted apart; operands that name the same host do not share a
    resolution. *)
Theorem one_resolution_per_remote_operand
    (mc_endpoint : option string) (verify : bool)
    (token oa_account iss : option string)
    (dry_run : bool) (port : Z) (recursive preserve_times : bool)
    (source : list operand) (target : operand) (w : World) (h : string) :
  (count (is_endpoint_call_for h)
     (trace (scp mc_endpoint verify token oa_account iss dry_run port recursive
               preserve_times source target w))
   <= List.length (filter (names h) (target :: source)))%nat /\
  (count is_token_call
     (trace (scp mc_endpoint verify token oa_account iss dry_run port recursive
               preserve_times source target w))
   <= List.length (filter is_remote (target :: source)))%nat /\
  (count is_user_call
     (trace (scp mc_endpoint verify token oa_account iss dry_run port recursive
               preserve_times source target w))
   <= List.length (filter is_remote (target :: source)))%nat.
Proof.
  split; [|split].
  - pose proof (bounded_scp (is_endpoint_call_for h) (fun _ => eq_refl)
                  mc_endpoint verify token oa_account iss dry_run port recursive
                  preserve_times (fun src => indicator (names h src))
                  (fun _ => eq_refl) (indicator (names h target)) source target)
      as Hb.
    rewrite list_sum_indicator in Hb. simpl.
    replace (List.length (if names h target then target :: filter (names h) source
                          else filter (names h) source))
      with (indicator (names h target) + List.length (filter (names h) source))%nat
      by (destruct (names h target); reflexivity).
    apply Hb.
    + intros h' l Hh. unfold names. rewrite Hh. apply resolve_endpoint_calls.
    + intros src l. apply scp_source_endpoint_calls.
  - pose proof (bounded_scp is_token_call (fun _ => eq_refl)
                  mc_endpoint verify token oa_account iss dry_run port recursive
                  preserve_times (fun src => indicator (is_remote src))
                  (fun _ => eq_refl) (indicator (is_remote target)) source target)
      as Hb.
    rewrite list_sum_indicator in Hb. simpl.
    replace (List.length (if is_remote target then target :: filter is_remote source
                          else filter is_remote source))
      with (indicator (is_remote target) + List.length (filter is_remote source))%nat
      by (destruct (is_remote target); reflexivity).
    apply Hb.
    + intros h' l Hh. unfold is_remote. rewrite Hh. apply resolve_token_calls.
    + intros src l. apply scp_source_token_calls.
  - pose proof (bounded_scp is_user_call (fun _ => eq_refl)
                  mc_endpoint verify token oa_account iss dry_run port recursive
                  preserve_times (fun src => indicator (is_remote src))
                  (fun _ => eq_refl) (indicator (is_remote target)) source target)
      as Hb.
    rewrite list_sum_indicator in Hb. simpl.
    replace (List.length (if is_remote target then target :: filter is_remote source
                          else filter is_remote source))
      with (indicator (is_remote target) + List.length (filter is_remote source))%nat
      by (destruct (is_remote target); reflexivity).
    apply Hb.
    + intros h' l Hh. unfold is_remote. rewrite Hh. apply resolve_user_calls.
    + intros src l. apply scp_source_user_calls.
Qed.

(** C5, amended: a copy in which no source and not the target names a host
    calls neither the transport nor the remote API; when no call raises
    (the only call is the rendering of the password in a dry run), the
    command prints "No remote host specified. Use regular cp instead." and
    nothing else. *)
Theorem local_copy_is_refused
    (mc_endpoint : option string) (verify : bool)
    (token oa_account iss : option string)
    (dry_run : bool) (port : Z) (recursive preserve_times : bool)
    (source : list operand) (target : operand) (w : World) :
  source <> [] ->
  Forall (fun src => host src = None) source ->
  host target = None ->
  no_transfer
    (trace (scp mc_endpoint verify token oa_account iss dry_run port recursive
              preserve_times source target w)) /\
  no_network_call
    (trace (scp mc_endpoint verify token oa_account iss dry_run port recursive
              preserve_times source target w)) /\
  (all_returned
     (trace (scp mc_endpoint verify token oa_account iss dry_run port recursive
               preserve_times source target w)) ->
   result (scp mc_endpoint verify token oa_account iss dry_run port recursive
             preserve_times source target w) = inr tt /\
   printed
     (trace (scp mc_endpoint verify token oa_account iss dry_run port recursive
               preserve_times source target w))
   = [no_remote_host]).
Proof.
  intros Hne Hlocal Htarget.
  destruct source as [|[sh sp] rest]; [congruence|].
  apply Forall_inv in Hlocal. simpl in Hlocal. subst sh.
  destruct target as [dh dp]. simpl in Htarget. subst dh.
  unfold no_transfer, no_network_call, scp, scp_dry_run, scp_try. simpl.
  unfold scp_source. simpl.
  destruct dry_run; open_run; simpl; repeat next_call;
    (split; [reflexivity|]); (split; [reflexivity|]); try raised;
    intros _; split; reflexivity.
Qed.

(** C6, amended: when the target and one of the sources name a host,
    nothing is fetched, and the transfers are at most one for each local
    source that stands before the first remote one, none at all in a dry
    run; when no call raises, the command prints "scp between remote hosts
    not yet supported." and nothing else. *)
Theorem remote_to_remote_is_refused
    (mc_endpoint : option string) (verify : bool)
    (token oa_account iss : option string)
    (dry_run : bool) (port : Z) (recursive preserve_times : bool)
    (pre post : list operand) (s target : operand) (dh sh : string) (w : World) :
  host target = Some dh ->
  host s = Some sh ->
  Forall (fun src => host src = None) pre ->
  count is_scp_get
    (trace (scp mc_endpoint verify token oa_account iss dry_run port recursive
              preserve_times (pre ++ s :: post) target w)) = 0%nat /\
  (count is_transport
     (trace (scp mc_endpoint verify token oa_account iss dry_run port recursive
               preserve_times (pre ++ s :: post) target w))
   <= if dry_run then 0 else List.length pre)%nat /\
  (all_returned
     (trace (scp mc_endpoint verify token oa_account iss dry_run port recursive
               preserve_times (pre ++ s :: post) target w)) ->
   result (scp mc_endpoint verify token oa_account iss dry_run port recursive
             preserve_times (pre ++ s :: post) target w) = inr tt /\
   printed
     (trace (scp mc_endpoint verify token oa_account iss dry_run port recursive
               preserve_times (pre ++ s :: post) target w))
   = [between_remote_hosts]).
Proof.
  intros Htarget Hs Hpre. split; [|split].
  - pose proof (bounded_scp is_scp_get (fun _ => eq_refl)
                  mc_endpoint verify token oa_account iss dry_run port recursive
                  preserve_times (fun _ => 0%nat)
                  (fun _ => eq_refl) 0%nat (pre ++ s :: post) target) as Hb.
    rewrite list_sum_zeros in Hb.
    enough (count is_scp_get
              (trace (scp mc_endpoint verify token oa_account iss dry_run port
                        recursive preserve_times (pre ++ s :: post) target w))
            <= 0)%nat by lia.
    apply Hb.
    + intros h l _. apply resolve_no_get.
    + intros src l. rewrite Htarget. apply scp_source_no_get.
  - destruct dry_run.
    + rewrite (scp_dry_run_no_transfer mc_endpoint verify token oa_account iss port
                 recursive preserve_times (pre ++ s :: post) target w). lia.
    + pose proof (bounded_scp_loop is_transport (fun _ => eq_refl)
                    mc_endpoint verify token oa_account iss false port recursive
                    preserve_times (fun _ => eq_refl) 0 (List.length pre)
                    (pre ++ s :: post) target) as Hb.
      apply Hb.
      * intros h l _. apply resolve_transport.
      * intros l. rewrite Htarget. now apply scp_for_between with (sh := sh).
  - intros H.
    destruct (scp_returned mc_endpoint verify token oa_account iss dry_run port
                recursive preserve_times (pre ++ s :: post) target w H) as [Hr Hp].
    rewrite Htarget, (direction_error_between pre post s dh sh Hpre Hs) in Hp.
    now split.
Qed.

End Claims.

(** * The claims on the sample runtime *)

(** C7 at [ssh --token TOK --oa-account egi --iss https://issuer host] and
    the like for scp. *)
Lemma three_sources_fail_at_parsing_witness :
  exists msg,
    cli_ssh (R := sample_runtime) None true
      {| given := Some "TOK"; envvar := None |}
      {| given := Some "egi"; envvar := None |}
      {| given := Some "https://issuer"; envvar := None |}
      false 22 "host" None tt
    = (inl (UsageError msg), tt, []) /\
    cli_scp (R := sample_runtime) None true
      {| given := Some "TOK"; envvar := None |}
      {| given := Some "egi"; envvar := None |}
      {| given := Some "https://issuer"; envvar := None |}
      false 22 false false [local_file "a.txt"] (remote_file "host" "/tmp") tt
    = (inl (UsageError msg), tt, []) /\
    no_network_call
      (trace (cli_ssh (R := sample_runtime) None true
                {| given := Some "TOK"; envvar := None |}
                {| given := Some "egi"; envvar := None |}
                {| given := Some "https://issuer"; envvar := None |}
                false 22 "host" None tt)) /\
    no_network_call
      (trace (cli_scp (R := sample_runtime) None true
                {| given := Some "TOK"; envvar := None |}
                {| given := Some "egi"; envvar := None |}
                {| given := Some "https://issuer"; envvar := None |}
                false 22 false false [local_file "a.txt"]
                (remote_file "host" "/tmp") tt)).
Proof.
  apply (three_sources_fail_at_parsing (R := sample_runtime)); reflexivity.
Defined.

(** C2 at [scp --dry-run a.txt host:/tmp] with no source of a token. *)
Lemma scp_dry_run_error_escapes_witness :
  scp (R := sample_runtime) None true None None None true 22 false false
    [local_file "a.txt"] (remote_file "host" "/tmp") tt
  = (inl no_access_token, tt,
     [Called (c_str_init_token None None None) (inl no_access_token)]).
Proof.
  apply (scp_dry_run_error_escapes (R := sample_runtime)). reflexivity.
Defined.

(** C1 as the specification has it fails at
    [scp --dry-run --token TOK -r -p -P 2222 a.txt host:/tmp]: the run
    resolves endpoint, token and username of [host]. *)
Lemma scp_dry_run_calls_remote_api :
  ~ no_network_call
      (trace (scp (R := sample_runtime) None true (Some "TOK") None None true
                2222 true true [local_file "a.txt"]
                (remote_file "host" "/tmp") tt)).
Proof.
  unfold no_network_call. vm_compute. discriminate.
Qed.

(** C1, amended, at the same command. *)
Lemma scp_dry_run_flags_once_witness :
  exists password mc_url tok user,
    trace (scp (R := sample_runtime) None true (Some "TOK") None None true
             2222 true true [local_file "a.txt"] (remote_file "host" "/tmp") tt)
    = [Called (c_str_init_token (Some "TOK") None None) (inr password);
       Called (c_init_endpoint None "host" true) (inr mc_url);
       Called (c_init_token (Some "TOK") None None mc_url true) (inr tok);
       Called (c_init_user mc_url tok true) (inr user);
       Printed
         (scp_sshpass_cmd password " -r -p -P 2222"
            ++ join_operands ["a.txt"; user ++ "@" ++ "host" ++ ":" ++ "/tmp"])].
Proof.
  destruct (scp_dry_run_flags_once (R := sample_runtime) None true (Some "TOK")
              None None (Some "a.txt") "host" (Some "/tmp") tt)
    as (_ & _ & _ & _ & _ & H).
  apply H. reflexivity.
Defined.

(** C3 as the specification has it fails at
    [scp --token TOK host:a host:b .]: the endpoint of [host] is resolved
    twice. *)
Lemma same_host_resolved_twice :
  ~ resolved_once_per_host
      (trace (scp (R := sample_runtime) None true (Some "TOK") None None false
                22 false false [remote_file "host" "a"; remote_file "host" "b"]
                (local_file ".") tt)).
Proof.
  intros H. specialize (H "host"). vm_compute in H. lia.
Qed.

(** C5 as the specification has it fails at [scp --dry-run a.txt b.txt]
    with no source of a token: the command ends with the exception of
    str_init_token and prints nothing. *)
Lemma local_dry_run_without_token :
  result (scp (R := sample_runtime) None true None None None true 22 false false
            [local_file "a.txt"] (local_file "b.txt") tt)
  = inl no_access_token /\
  printed
    (trace (scp (R := sample_runtime) None true None None None true 22 false
              false [local_file "a.txt"] (local_file "b.txt") tt))
  <> [no_remote_host].
Proof.
  split; [reflexivity|]. vm_compute. discriminate.
Qed.

(** C5, amended, at [scp --token TOK a.txt b.txt]. *)
Lemma local_copy_is_refused_witness :
  result (scp (R := sample_runtime) None true (Some "TOK") None None false 22
            false false [local_file "a.txt"] (local_file "b.txt") tt)
  = inr tt /\
  printed
    (trace (scp (R := sample_runtime) None true (Some "TOK") None None false 22
              false false [local_file "a.txt"] (local_file "b.txt") tt))
  = [no_remote_host].
Proof.
  destruct (local_copy_is_refused (R := sample_runtime) None true (Some "TOK")
              None None false 22 false false [local_file "a.txt"]
              (local_file "b.txt") tt)
    as (_ & _ & H).
  - discriminate.
  - repeat constructor.
  - reflexivity.
  - apply H. reflexivity.
Defined.

(** C6 as the specification has it fails at
    [scp --token TOK a.txt h1:b host:/tmp]: a.txt is sent to [host] before
    the second source is refused. *)
Lemma local_source_is_sent_before_refusal :
  ~ no_transfer
      (trace (scp (R := sample_runtime) None true (Some "TOK") None None false
                22 false false [local_file "a.txt"; remote_file "h1" "b"]
                (remote_file "host" "/tmp") tt)).
Proof.
  unfold no_transfer. vm_compute. discriminate.
Qed.

(** C6, amended, at the same command. *)
Lemma remote_to_remote_is_refused_witness :
  result (scp (R := sample_runtime) None true (Some "TOK") None None false 22
            false false ([local_file "a.txt"] ++ remote_file "h1" "b" :: [])
            (remote_file "host" "/tmp") tt)
  = inr tt /\
  printed
    (trace (scp (R := sample_runtime) None true (Some "TOK") None None false 22
              false false ([local_file "a.txt"] ++ remote_file "h1" "b" :: [])
              (remote_file "host" "/tmp") tt))
  = [between_remote_hosts].
Proof.
  destruct (remote_to_remote_is_refused (R := sample_runtime) None true
              (Some "TOK") None None false 22 false false
              [local_file "a.txt"] [] (remote_file "h1" "b")
              (remote_file "host" "/tmp") "host" "h1" tt)
    as (_ & _ & H).
  - reflexivity.
  - reflexivity.
  - repeat constructor.
  - apply H. reflexivity.
Defined.

(** * Further properties of ssh *)

(** Split a listed trace at the event that the goal names. *)
Ltac split_trace :=
  first
    [ exists (@nil event); repeat split; reflexivity
    | eexists [_]; repeat split; reflexivity
    | eexists [_; _]; repeat split; reflexivity
    | eexists [_; _; _]; repeat split; reflexivity
    | eexists [_; _; _; _]; repeat split; reflexivity ].

(** The raise that a membership hypothesis speaks of, in a listed trace. *)
Ltac pick_raise H :=
  simpl in H;
  repeat match type of H with
         | _ \/ _ => destruct H as [H|H]
         end;
  try contradiction; try discriminate H;
  try (injection H as <- <-).

Section SshMore.

Context {R : Runtime}.

Variables (mc_endpoint : option string) (verify : bool)
          (token oa_account iss : option string)
          (p : Z) (hostname : string).

(** X2, lines 58-61 and 76-77: when a call of ssh raises, nothing was written
    before, no call follows, and the message of the exception is the last
    thing the run does. *)
Theorem ssh_reports_first_error (dry_run : bool) (command : option string)
    (w : World) (c : call) (e : exn) :
  In (Called c (inl e))
    (trace (ssh mc_endpoint verify token oa_account iss dry_run p hostname
              command w)) ->
  exists t,
    trace (ssh mc_endpoint verify token oa_account iss dry_run p hostname command w)
    = (t ++ [Called c (inl e); Printed (str_exn e)])%list /\
    all_returned t /\ printed t = [].
Proof.
  unfold ssh. open_run.
  repeat next_call; try (intros H; pick_raise H; split_trace);
    destruct dry_run; simpl; repeat next_call;
    try (intros H; pick_raise H; split_trace);
    destruct command; simpl; repeat next_call;
    intros H; pick_raise H; split_trace.
Qed.

(** X3, lines 59-61 and 71-75: a real run in which every call returns resolves
    endpoint, token and username, each from what the one before returned,
    and ends with one transport call for the resolved user on port [p]:
    the login shell when there is no command, the command otherwise, also
    when it is the empty string.  Nothing is written. *)
Theorem ssh_real_run (command : option string) (w : World) :
  all_returned
    (trace (ssh mc_endpoint verify token oa_account iss false p hostname
              command w)) ->
  exists mc_url tok user v,
    trace (ssh mc_endpoint verify token oa_account iss false p hostname command w)
    = [Called (c_init_endpoint mc_endpoint hostname verify) (inr mc_url);
       Called (c_init_token token oa_account iss mc_url verify) (inr tok);
       Called (c_init_user mc_url tok verify) (inr user);
       Called (ssh_transport_call hostname user tok p command) (inr v)].
Proof.
  unfold ssh. open_run.
  repeat next_call; try raised;
    destruct command; simpl; repeat next_call; try raised;
    intros _; eauto.
Qed.

(** X5, lines 62-70: a dry run of ssh never reaches the transport and writes
    one line, whatever the calls do; a real run never renders the password,
    raises at most once and writes one line for a raise and none
    otherwise. *)
Theorem ssh_dry_run_and_real_run (command : option string) (w : World) :
  count is_transport
    (trace (ssh mc_endpoint verify token oa_account iss true p hostname command w))
  = 0%nat /\
  List.length
    (printed
       (trace (ssh mc_endpoint verify token oa_account iss true p hostname
                 command w)))
  = 1%nat /\
  count is_password_call
    (trace (ssh mc_endpoint verify token oa_account iss false p hostname command w))
  = 0%nat /\
  (count is_raise
     (trace (ssh mc_endpoint verify token oa_account iss false p hostname
               command w))
   <= 1)%nat /\
  List.length
    (printed
       (trace (ssh mc_endpoint verify token oa_account iss false p hostname
                 command w)))
  = count is_raise
      (trace (ssh mc_endpoint verify token oa_account iss false p hostname
                command w)).
Proof.
  unfold ssh. open_run. unfold count.
  repeat next_call; simpl; repeat split; try reflexivity; try lia;
    destruct command; simpl; repeat next_call; simpl; reflexivity || lia.
Qed.

(** X6, lines 68-69: the dry run of an empty command is the dry run of no
    command, call for call and line for line (the real run of X3 executes
    the empty command); a command that is not empty stands at the end of
    the line in single quotes. *)
Theorem ssh_dry_run_command (password ssh_opts user : string) (command : string)
    (w : World) :
  ssh mc_endpoint verify token oa_account iss true p hostname (Some "") w
  = ssh mc_endpoint verify token oa_account iss true p hostname None w /\
  (command <> "" ->
   ssh_sshpass_cmd password ssh_opts user hostname (Some command)
   = ssh_sshpass_cmd password ssh_opts user hostname None
       ++ " '" ++ command ++ "'").
Proof.
  split; [reflexivity|].
  intros Hc. unfold ssh_sshpass_cmd.
  destruct command; [congruence|reflexivity].
Qed.

End SshMore.

(** * Further properties of scp *)

Section PropagationFacts.

Context {R : Runtime}.

Lemma propagates_ret {A : Type} (a : A) : propagates (ret a).
Proof.
  intros w c e H. destruct H.
Qed.

Lemma propagates_raise {A : Type} (e0 : exn) : propagates (@raise R A e0).
Proof.
  intros w c e H. destruct H.
Qed.

Lemma propagates_call_out (c0 : call) : propagates (call_out c0).
Proof.
  intros w c e. unfold call_out, trace, result.
  destruct (perform c0 w) as [r w1]. simpl.
  intros [H|[]]. now injection H as _ ->.
Qed.

Lemma propagates_bind {A B : Type} (m : M A) (f : A -> M B) :
  propagates m -> (forall a, propagates (f a)) -> propagates (bind m f).
Proof.
  intros Hm Hf w c e. specialize (Hm w c e). unfold bind, trace, result in *.
  destruct (m w) as [[[e1|a] w1] t1]; simpl in *.
  { intros H. specialize (Hm H). now injection Hm as ->. }
  specialize (Hf a w1 c e). unfold trace, result in Hf.
  destruct (f a w1) as [[r2 w2] t2]; simpl in *.
  intros H. apply in_app_or in H as [H|H]; [|auto].
  specialize (Hm H). discriminate.
Qed.

Lemma silent_ret {A : Type} (a : A) : silent (ret a).
Proof.
  intros w. reflexivity.
Qed.

Lemma silent_raise {A : Type} (e0 : exn) : silent (@raise R A e0).
Proof.
  intros w. reflexivity.
Qed.

Lemma silent_call_out (c0 : call) : silent (call_out c0).
Proof.
  intros w. unfold call_out, trace. now destruct (perform c0 w).
Qed.

Lemma silent_bind {A B : Type} (m : M A) (f : A -> M B) :
  silent m -> (forall a, silent (f a)) -> silent (bind m f).
Proof.
  intros Hm Hf w. specialize (Hm w). unfold bind, trace in *.
  destruct (m w) as [[[e1|a] w1] t1]; simpl in *; [assumption|].
  specialize (Hf a w1). unfold trace in Hf.
  destruct (f a w1) as [[r2 w2] t2]; simpl in *.
  now rewrite printed_app, Hm, Hf.
Qed.

Variables (mc_endpoint : option string) (verify : bool)
          (token oa_account iss : option string)
          (dry_run : bool) (port : Z) (recursive preserve_times : bool).

Lemma resolve_facts (h : string) (l : locals) :
  propagates (resolve mc_endpoint verify token oa_account iss h l) /\
  silent (resolve mc_endpoint verify token oa_account iss h l).
Proof.
  unfold resolve, init_endpoint, init_token, init_user. split.
  - repeat (apply propagates_bind; [apply propagates_call_out|intros ?]).
    apply propagates_ret.
  - repeat (apply silent_bind; [apply silent_call_out|intros ?]).
    apply silent_ret.
Qed.

Lemma read_facts (name : string) (v : option string) :
  propagates (read name v) /\ silent (read name v).
Proof.
  destruct v; simpl; split;
    auto using propagates_ret, propagates_raise, silent_ret, silent_raise.
Qed.

Lemma call_proc_facts (c0 : call) :
  propagates (call_proc c0) /\ silent (call_proc c0).
Proof.
  unfold call_proc. split.
  - apply propagates_bind; [apply propagates_call_out|intros ?; apply propagates_ret].
  - apply silent_bind; [apply silent_call_out|intros ?; apply silent_ret].
Qed.

Variables (dest_host : option string) (dest_path : string).

Lemma scp_source_facts (src : operand) (l : locals) :
  propagates
    (scp_source mc_endpoint verify token oa_account iss dry_run port recursive
       preserve_times dest_host dest_path src l) /\
  silent
    (scp_source mc_endpoint verify token oa_account iss dry_run port recursive
       preserve_times dest_host dest_path src l).
Proof.
  unfold scp_source, scp_get, scp_put.
  split.
  - apply propagates_bind.
    + destruct (host src); [apply resolve_facts|apply propagates_ret].
    + intros l1. destruct (host src), dest_host, dry_run;
        repeat first
          [ apply propagates_raise
          | apply propagates_ret
          | apply read_facts
          | apply call_proc_facts
          | apply propagates_bind; [|intros ?] ].
  - apply silent_bind.
    + destruct (host src); [apply resolve_facts|apply silent_ret].
    + intros l1. destruct (host src), dest_host, dry_run;
        repeat first
          [ apply silent_raise
          | apply silent_ret
          | apply read_facts
          | apply call_proc_facts
          | apply silent_bind; [|intros ?] ].
Qed.

Lemma scp_for_facts (source : list operand) (l : locals) :
  propagates
    (scp_for mc_endpoint verify token oa_account iss dry_run port recursive
       preserve_times dest_host dest_path source l) /\
  silent
    (scp_for mc_endpoint verify token oa_account iss dry_run port recursive
       preserve_times dest_host dest_path source l).
Proof.
  revert l. induction source as [|src rest IH]; intros l; simpl.
  - split; [apply propagates_ret|apply silent_ret].
  - split.
    + apply propagates_bind; [apply scp_source_facts|intros l1; apply IH].
    + apply silent_bind; [apply scp_source_facts|intros l1; apply IH].
Qed.

End PropagationFacts.

Section HandlerFacts.

Context {R : Runtime}.

(** The handlers make no call: they write the line of the exception, or
    raise where the filename of a PermissionError cannot be decoded. *)
Lemma scp_except_run (e : exn) (w : World) :
  scp_except e w
  = (match e with
     | PermissionError _ filename =>
         match decode utf8_decode filename with
         | inl e' => inl e'
         | inr _ => inr tt
         end
     | _ => inr tt
     end, w, map Printed (scp_error_line utf8_decode repr_bytes e)).
Proof.
  destruct e as [msg f|msg f|msg f|msg]; unfold scp_except, scp_error_line;
    open_run; try reflexivity.
  now destruct (decode utf8_decode f).
Qed.

Lemma printed_map_Printed (lines : list string) : printed (map Printed lines) = lines.
Proof.
  induction lines as [|x lines IH]; simpl; [reflexivity|]. now rewrite IH.
Qed.

Lemma scp_error_line_length (e : exn) :
  (List.length (scp_error_line utf8_decode repr_bytes e) <= 1)%nat.
Proof.
  destruct e as [msg f|msg f|msg f|msg]; simpl; try lia.
  destruct (decode utf8_decode f); simpl; lia.
Qed.

Variables (mc_endpoint : option string) (verify : bool)
          (token oa_account iss : option string)
          (dry_run : bool) (port : Z) (recursive preserve_times : bool)
          (source : list operand) (target : operand).

Lemma scp_print_facts (dest_host : option string) (dest_path : string)
    (l : locals) (w : World) :
  (forall c e,
     ~ In (Called c (inl e)) (trace (scp_print dry_run dest_host dest_path l w))) /\
  (List.length (printed (trace (scp_print dry_run dest_host dest_path l w))) <= 1)%nat /\
  (forall e,
     result (scp_print dry_run dest_host dest_path l w) = inl e ->
     printed (trace (scp_print dry_run dest_host dest_path l w)) = []).
Proof.
  unfold scp_print.
  destruct dry_run, dest_host, (username l); open_run; simpl;
    repeat split; try lia; try discriminate; try reflexivity;
    intros c e H; pick_raise H.
Qed.

(** What stands under [try]: an exception raised by a call is the
    exception that leaves it, nothing is written when it raises and one
    line at most when it returns. *)
Lemma scp_try_facts (l : locals) (w : World) :
  (forall c e,
     In (Called c (inl e))
       (trace (scp_try mc_endpoint verify token oa_account iss dry_run port
                 recursive preserve_times source target l w)) ->
     result (scp_try mc_endpoint verify token oa_account iss dry_run port
               recursive preserve_times source target l w) = inl e) /\
  (forall e,
     result (scp_try mc_endpoint verify token oa_account iss dry_run port
               recursive preserve_times source target l w) = inl e ->
     printed
       (trace (scp_try mc_endpoint verify token oa_account iss dry_run port
                 recursive preserve_times source target l w)) = []) /\
  (List.length
     (printed
        (trace (scp_try mc_endpoint verify token oa_account iss dry_run port
                  recursive preserve_times source target l w))) <= 1)%nat.
Proof.
  unfold scp_try.
  set (first :=
         match host target with
         | Some h => resolve mc_endpoint verify token oa_account iss h l
         | None => ret l
         end).
  assert (Hfirst : propagates first /\ silent first).
  { subst first. destruct (host target); [apply resolve_facts|].
    split; [apply propagates_ret|apply silent_ret]. }
  destruct Hfirst as [Hp1 Hs1]. specialize (Hp1 w). specialize (Hs1 w).
  clearbody first. unfold bind, trace, result in *.
  destruct (first w) as [[[e1|l1] w1] t1]; simpl in *.
  { repeat split; [|intros; assumption|rewrite Hs1; simpl; lia].
    intros c e H. specialize (Hp1 c e H). now injection Hp1 as ->. }
  destruct (scp_for_facts mc_endpoint verify token oa_account iss dry_run port
              recursive preserve_times (host target) (get (path target) ".")
              source l1) as [Hp2 Hs2].
  specialize (Hp2 w1). specialize (Hs2 w1). unfold trace, result in *.
  destruct (scp_for _ _ _ _ _ _ _ _ _ _ _ source l1 w1) as [[[e2|l2] w2] t2];
    simpl in *.
  { repeat split.
    - intros c e H. apply in_app_or in H as [H|H].
      + specialize (Hp1 c e H). discriminate.
      + specialize (Hp2 c e H). now injection Hp2 as ->.
    - intros e _. now rewrite printed_app, Hs1, Hs2.
    - rewrite printed_app, Hs1, Hs2. simpl. lia. }
  destruct (scp_print_facts (host target) (get (path target) ".") l2 w2)
    as (Hp3 & Hn3 & Hq3).
  unfold trace, result in *.
  destruct (scp_print dry_run (host target) (get (path target) ".") l2 w2)
    as [[r3 w3] t3]; simpl in *.
  repeat split.
  - intros c e H. apply in_app_or in H as [H|H].
    + specialize (Hp1 c e H). discriminate.
    + apply in_app_or in H as [H|H].
      * specialize (Hp2 c e H). discriminate.
      * now apply Hp3 in H.
  - intros e He. rewrite !printed_app, Hs1, Hs2. simpl. now apply Hq3 with (e := e).
  - rewrite !printed_app, Hs1, Hs2. simpl. assumption.
Qed.

End HandlerFacts.

Section ScpMore.

Context {R : Runtime}.

Variables (mc_endpoint : option string) (verify : bool)
          (token oa_account iss : option string)
          (port : Z) (recursive preserve_times : bool).

(** X7, lines 105-154: when a call under the try raises (any call but the
    rendering of the password), the run writes the line that the handlers
    have for this exception and nothing else: the decoded filename with
    ": Permission denied", the filename with ": not a regular file" or
    ": No such file or directory", or the message of the exception.  The
    command then returns, unless the filename of a PermissionError cannot
    be decoded: that exception leaves the command and nothing is written. *)
Theorem scp_reports_error (dry_run : bool) (source : list operand)
    (target : operand) (w : World) (c : call) (e : exn) :
  is_password_call (Called c (inl e)) = false ->
  In (Called c (inl e))
    (trace (scp mc_endpoint verify token oa_account iss dry_run port recursive
              preserve_times source target w)) ->
  printed
    (trace (scp mc_endpoint verify token oa_account iss dry_run port recursive
              preserve_times source target w))
  = scp_error_line utf8_decode repr_bytes e /\
  result (scp mc_endpoint verify token oa_account iss dry_run port recursive
            preserve_times source target w)
  = match e with
    | PermissionError _ filename =>
        match decode utf8_decode filename with
        | inl e' => inl e'
        | inr _ => inr tt
        end
    | _ => inr tt
    end.
Proof.
  intros Hc.
  assert (Htry : forall l w0,
             In (Called c (inl e))
               (trace (try_except
                         (scp_try mc_endpoint verify token oa_account iss dry_run
                            port recursive preserve_times source target l)
                         scp_except w0)) ->
             printed
               (trace (try_except
                         (scp_try mc_endpoint verify token oa_account iss dry_run
                            port recursive preserve_times source target l)
                         scp_except w0))
             = scp_error_line utf8_decode repr_bytes e /\
             result (try_except
                       (scp_try mc_endpoint verify token oa_account iss dry_run
                          port recursive preserve_times source target l)
                       scp_except w0)
             = match e with
               | PermissionError _ filename =>
                   match decode utf8_decode filename with
                   | inl e' => inl e'
                   | inr _ => inr tt
                   end
               | _ => inr tt
               end).
  { intros l w0.
    destruct (scp_try_facts mc_endpoint verify token oa_account iss dry_run port
                recursive preserve_times source target l w0) as (Hp & Hq & _).
    unfold try_except, trace, result in *.
    destruct (scp_try _ _ _ _ _ _ _ _ _ _ _ l w0) as [[[e1|[]] w1] t1]; simpl in *.
    - rewrite scp_except_run. simpl. intros H.
      apply in_app_or in H as [H|H].
      + specialize (Hp c e H). injection Hp as ->.
        rewrite printed_app, (Hq e eq_refl), printed_map_Printed. now split.
      + exfalso. clear -H.
        induction (scp_error_line utf8_decode repr_bytes e1) as [|x xs IH];
          simpl in H; [assumption|].
        destruct H as [H|H]; [discriminate|auto].
    - intros H. specialize (Hp c e H). discriminate. }
  unfold scp, scp_dry_run. destruct dry_run.
  - unfold bind, str_init_token, call_out, ret.
    destruct (perform (c_str_init_token token oa_account iss) w) as [[e0|password] w0];
      simpl.
    + unfold trace. simpl. intros [H|[]]. injection H as <- <-. discriminate.
    + specialize (Htry {| access_token := None; username := None;
                          sshpass_cmd :=
                            scp_sshpass_cmd password
                              (scp_opts recursive preserve_times port) |} w0).
      destruct (try_except _ _ w0) as [[r1 w1] t1]. unfold trace, result in *.
      simpl in *. intros [H|H]; [discriminate|]. exact (Htry H).
  - unfold bind, ret.
    specialize (Htry {| access_token := None; username := None; sshpass_cmd := "" |} w).
    destruct (try_except _ _ w) as [[r1 w1] t1]. unfold trace, result in *.
    simpl in *. exact Htry.
Qed.

(** X9: no run of scp writes more than one line, whatever its calls do. *)
Theorem scp_writes_at_most_one_line (dry_run : bool) (source : list operand)
    (target : operand) (w : World) :
  (List.length
     (printed
        (trace (scp mc_endpoint verify token oa_account iss dry_run port recursive
                  preserve_times source target w))) <= 1)%nat.
Proof.
  assert (Htry : forall l w0,
             (List.length
                (printed
                   (trace (try_except
                             (scp_try mc_endpoint verify token oa_account iss
                                dry_run port recursive preserve_times source
                                target l)
                             scp_except w0))) <= 1)%nat).
  { intros l w0.
    destruct (scp_try_facts mc_endpoint verify token oa_account iss dry_run port
                recursive preserve_times source target l w0) as (_ & Hq & Hn).
    unfold try_except, trace, result in *.
    destruct (scp_try _ _ _ _ _ _ _ _ _ _ _ l w0) as [[[e1|[]] w1] t1]; simpl in *;
      [|assumption].
    rewrite scp_except_run. simpl.
    rewrite printed_app, (Hq e1 eq_refl), printed_map_Printed. simpl.
    apply scp_error_line_length. }
  unfold scp, scp_dry_run. destruct dry_run.
  - unfold bind, str_init_token, call_out, ret.
    destruct (perform (c_str_init_token token oa_account iss) w) as [[e0|password] w0];
      simpl; [unfold trace; simpl; lia|].
    specialize (Htry {| access_token := None; username := None;
                        sshpass_cmd :=
                          scp_sshpass_cmd password
                            (scp_opts recursive preserve_times port) |} w0).
    destruct (try_except _ _ w0) as [[r1 w1] t1]. unfold trace in *.
    simpl in *. exact Htry.
  - unfold bind, ret.
    specialize (Htry {| access_token := None; username := None; sshpass_cmd := "" |} w).
    destruct (try_except _ _ w) as [[r1 w1] t1]. unfold trace in *.
    simpl in *. exact Htry.
Qed.

End ScpMore.

Section Transfers.

Context {R : Runtime}.

Variables (mc_endpoint : option string) (verify : bool)
          (token oa_account iss : option string)
          (port : Z) (recursive preserve_times : bool).

Lemma all_returned_return (c : call) (v : string) (t : list event) :
  all_returned (Called c (inr v) :: t) <-> all_returned t.
Proof.
  unfold all_returned, count. simpl. reflexivity.
Qed.

(** The loop of a dry run over local sources, for a remote target: no
    call, one operand more on the line for each source. *)
Lemma scp_for_dry_run_upload (dh dest_path : string) (source : list operand) :
  Forall (fun src => host src = None) source ->
  forall l w,
    scp_for mc_endpoint verify token oa_account iss true port recursive
      preserve_times (Some dh) dest_path source l w
    = (inr {| access_token := access_token l; username := username l;
              sshpass_cmd :=
                sshpass_cmd l
                  ++ join_operands (map (fun src => get (path src) ".") source) |},
       w, []).
Proof.
  intros Hlocal. induction Hlocal as [|src rest Hsrc _ IH]; intros l w.
  - simpl. rewrite append_nil_r. now destruct l.
  - simpl. unfold scp_source. rewrite Hsrc. open_run. simpl.
    rewrite IH. simpl. now rewrite !append_assoc.
Qed.

(** X12, lines 95-104, 109-112, 134-136 and 141-146: a dry run with local
    sources and a remote target, in which every call returns, renders the
    password, resolves endpoint, token and username of the target host and
    writes one line: the sshpass prefix with the password, the option
    segment, the paths of the sources in their order and the target as
    user@host:path. *)
Theorem scp_dry_run_upload (source : list operand) (target : operand)
    (dh : string) (w : World) :
  host target = Some dh ->
  Forall (fun src => host src = None) source ->
  all_returned
    (trace (scp mc_endpoint verify token oa_account iss true port recursive
              preserve_times source target w)) ->
  exists password mc_url tok user,
    trace (scp mc_endpoint verify token oa_account iss true port recursive
             preserve_times source target w)
    = [Called (c_str_init_token token oa_account iss) (inr password);
       Called (c_init_endpoint mc_endpoint dh verify) (inr mc_url);
       Called (c_init_token token oa_account iss mc_url verify) (inr tok);
       Called (c_init_user mc_url tok verify) (inr user);
       Printed
         (scp_sshpass_cmd password (scp_opts recursive preserve_times port)
            ++ join_operands
                 (map (fun src => get (path src) ".") source
                    ++ [(user ++ "@" ++ dh ++ ":" ++ get (path target) ".")%string])%list)].
Proof.
  intros Htarget Hlocal. destruct target as [th tp]. simpl in Htarget. subst th.
  unfold scp, scp_dry_run, scp_try, resolve, scp_print. open_run. simpl.
  repeat next_call; try raised.
  rewrite (scp_for_dry_run_upload dh (get tp ".") source Hlocal). simpl.
  intros _. exists v, v0, v1, v2. do 5 f_equal.
  rewrite join_operands_app. simpl.
  now rewrite append_nil_r, !append_assoc.
Qed.

End Transfers.

Section Modes.

Context {R : Runtime}.

Variables (mc_endpoint : option string) (verify : bool)
          (token oa_account iss : option string)
          (port : Z) (recursive preserve_times : bool).

Lemma scp_source_no_password (dest_host : option string) (dest_path : string)
    (src : operand) (l : locals) :
  bounded is_password_call 0
    (scp_source mc_endpoint verify token oa_account iss false port recursive
       preserve_times dest_host dest_path src l).
Proof.
  intros w. unfold scp_source, resolve.
  destruct src as [[sh|] sp], l as [[tok|] [user|] cmd], dest_host; every_run.
Qed.

Lemma resolve_no_password (h : string) (l : locals) :
  bounded is_password_call 0 (resolve mc_endpoint verify token oa_account iss h l).
Proof.
  intros w. unfold resolve. every_run.
Qed.

(** X14, lines 95-96, 128-140: the two modes of scp keep apart for every list of
    operands and whatever the calls do: a dry run never calls scp_get or
    scp_put, and a real run never renders the password. *)
Theorem scp_modes_keep_apart (source : list operand) (target : operand)
    (w : World) :
  count is_transport
    (trace (scp mc_endpoint verify token oa_account iss true port recursive
              preserve_times source target w)) = 0%nat /\
  count is_password_call
    (trace (scp mc_endpoint verify token oa_account iss false port recursive
              preserve_times source target w)) = 0%nat.
Proof.
  split; [apply scp_dry_run_no_transfer|].
  enough (H : bounded is_password_call (0 + ((0 + (0 + 0)) + 0))
                (scp mc_endpoint verify token oa_account iss false port recursive
                   preserve_times source target))
    by (specialize (H w); simpl in H; lia).
  unfold scp, scp_dry_run.
  apply bounded_bind; [apply bounded_ret|]. intros l0.
  apply bounded_try; [|apply bounded_scp_except; reflexivity].
  unfold scp_try. apply bounded_bind.
  - destruct (host target); [apply resolve_no_password|apply bounded_ret].
  - intros l1. apply bounded_bind.
    + pose proof (bounded_scp_for is_password_call mc_endpoint verify token
                    oa_account iss false port recursive preserve_times
                    (fun _ => 0%nat) (host target) (get (path target) ".")
                    (fun src l => scp_source_no_password _ _ src l) source l1)
        as Hb.
      now rewrite list_sum_zeros in Hb.
    + intros l2. apply bounded_scp_print. reflexivity.
Qed.

(** X4, lines 59-70: a dry run of ssh in which every call returns resolves
    endpoint, token and username like a real run, renders the password
    last and writes the command line for the resolved user, with the
    option segment of the port. *)
Theorem ssh_dry_run (p : Z) (hostname : string) (command : option string)
    (w : World) :
  all_returned
    (trace (ssh mc_endpoint verify token oa_account iss true p hostname command w)) ->
  exists mc_url tok user password,
    trace (ssh mc_endpoint verify token oa_account iss true p hostname command w)
    = [Called (c_init_endpoint mc_endpoint hostname verify) (inr mc_url);
       Called (c_init_token token oa_account iss mc_url verify) (inr tok);
       Called (c_init_user mc_url tok verify) (inr user);
       Called (c_str_init_token token oa_account iss) (inr password);
       Printed (ssh_sshpass_cmd password (ssh_opts p) user hostname command)].
Proof.
  apply ssh_dry_run_trace.
Qed.

End Modes.

(** X16, lines 64-66 and 97-103: in the option segments every flag stands once
    when its option is set and not at all otherwise: -r for recursive, -p
    for preserve_times, and the port flag (-P for scp, -p for ssh) for a
    port that is neither 0 nor 22, whatever the other options are. *)
Theorem flags_exactly_when_set (recursive preserve_times : bool) (port p : Z) :
  count_sub "-r" (scp_opts recursive preserve_times port) = indicator recursive /\
  count_sub "-p" (scp_opts recursive preserve_times port) = indicator preserve_times /\
  count_sub "-P" (scp_opts recursive preserve_times port)
  = indicator (negb (port =? 0) && negb (port =? 22)) /\
  count_sub "-p" (ssh_opts p) = indicator (negb (p =? 0) && negb (p =? 22)).
Proof.
  rewrite scp_opts_count_r, scp_opts_count_p, scp_opts_count_P, ssh_opts_count_p.
  repeat split.
Qed.

Lemma direction_error_local (pre post : list operand) (s : operand) :
  Forall (fun src => is_remote src = true) pre ->
  host s = None ->
  direction_error (pre ++ s :: post) None = Some no_remote_host.
Proof.
  intros Hpre Hs. induction Hpre as [|x pre Hx _ IH]; simpl.
  - now rewrite Hs.
  - unfold is_remote in Hx. now destruct (host x).
Qed.

Section LocalTarget.

Context {R : Runtime}.

Variables (mc_endpoint : option string) (verify : bool)
          (token oa_account iss : option string)
          (port : Z) (recursive preserve_times : bool).

(** Nothing is put for a local target. *)
Lemma scp_source_no_put (dry_run : bool) (dest_path : string) (src : operand)
    (l : locals) :
  bounded is_scp_put 0
    (scp_source mc_endpoint verify token oa_account iss dry_run port recursive
       preserve_times None dest_path src l).
Proof.
  intros w. unfold scp_source, resolve.
  destruct src as [[sh|] sp], l as [[tok|] [user|] cmd], dry_run; every_run.
Qed.

(** A local source for a local target stops the loop at once. *)
Lemma scp_source_local (dry_run : bool) (dest_path : string) (src : operand)
    (l : locals) (w : World) :
  host src = None ->
  scp_source mc_endpoint verify token oa_account iss dry_run port recursive
    preserve_times None dest_path src l w
  = (inl (Exception no_remote_host), w, []).
Proof.
  intros Hs. unfold scp_source. rewrite Hs. reflexivity.
Qed.

Lemma scp_for_local (dry_run : bool) (dest_path : string)
    (pre post : list operand) (s : operand) (l : locals) :
  host s = None ->
  bounded is_transport (List.length pre)
    (scp_for mc_endpoint verify token oa_account iss dry_run port recursive
       preserve_times None dest_path (pre ++ s :: post) l).
Proof.
  intros Hs w. rewrite scp_for_app.
  replace (List.length pre) with (list_sum (map (fun _ => 1%nat) pre) + 0)%nat
    by (rewrite list_sum_ones; lia).
  apply bounded_bind.
  - apply bounded_scp_for. intros src l0. apply scp_source_transport.
  - intros l1 w1. simpl. unfold bind. now rewrite scp_source_local.
Qed.

(** X15, lines 122-124 in the loop: when the target is local and a source is
    local too, nothing is ever put, the transfers are at most one fetch for
    each remote source that stands before the first local one (none in a
    dry run), and when no call raises the command writes "No remote host
    specified. Use regular cp instead." and nothing else. *)
Theorem local_source_for_local_target (dry_run : bool)
    (pre post : list operand) (s target : operand) (w : World) :
  host target = None ->
  host s = None ->
  Forall (fun src => is_remote src = true) pre ->
  count is_scp_put
    (trace (scp mc_endpoint verify token oa_account iss dry_run port recursive
              preserve_times (pre ++ s :: post) target w)) = 0%nat /\
  (count is_transport
     (trace (scp mc_endpoint verify token oa_account iss dry_run port recursive
               preserve_times (pre ++ s :: post) target w))
   <= if dry_run then 0 else List.length pre)%nat /\
  (all_returned
     (trace (scp mc_endpoint verify token oa_account iss dry_run port recursive
               preserve_times (pre ++ s :: post) target w)) ->
   result (scp mc_endpoint verify token oa_account iss dry_run port recursive
             preserve_times (pre ++ s :: post) target w) = inr tt /\
   printed
     (trace (scp mc_endpoint verify token oa_account iss dry_run port recursive
               preserve_times (pre ++ s :: post) target w))
   = [no_remote_host]).
Proof.
  intros Htarget Hs Hpre. split; [|split].
  - pose proof (bounded_scp is_scp_put (fun _ => eq_refl)
                  mc_endpoint verify token oa_account iss dry_run port recursive
                  preserve_times (fun _ => 0%nat)
                  (fun _ => eq_refl) 0%nat (pre ++ s :: post) target) as Hb.
    rewrite list_sum_zeros in Hb.
    enough (count is_scp_put
              (trace (scp mc_endpoint verify token oa_account iss dry_run port
                        recursive preserve_times (pre ++ s :: post) target w))
            <= 0)%nat by lia.
    apply Hb.
    + intros h l Hh. congruence.
    + intros src l. rewrite Htarget. apply scp_source_no_put.
  - destruct dry_run.
    + rewrite (scp_dry_run_no_transfer mc_endpoint verify token oa_account iss port
                 recursive preserve_times (pre ++ s :: post) target w). lia.
    + pose proof (bounded_scp_loop is_transport (fun _ => eq_refl)
                    mc_endpoint verify token oa_account iss false port recursive
                    preserve_times (fun _ => eq_refl) 0 (List.length pre)
                    (pre ++ s :: post) target) as Hb.
      apply Hb.
      * intros h l Hh. congruence.
      * intros l. rewrite Htarget. now apply scp_for_local.
  - intros H.
    destruct (scp_returned mc_endpoint verify token oa_account iss dry_run port
                recursive preserve_times (pre ++ s :: post) target w H) as [Hr Hp].
    rewrite Htarget, (direction_error_local pre post s Hpre Hs) in Hp.
    now split.
Qed.

End LocalTarget.

(** * The further properties on the sample runtimes *)

(** [ssh down.example.org]: the endpoint is not found. *)
Lemma ssh_reports_first_error_witness :
  exists t,
    trace (ssh (R := sample_runtime) None true (Some "TOK") None None false 22
             "down.example.org" None tt)
    = (t ++ [Called (c_init_endpoint None "down.example.org" true)
               (inl (Exception "No motley_cue service found on host"));
             Printed "No motley_cue service found on host"])%list /\
    all_returned t /\ printed t = [].
Proof.
  apply (ssh_reports_first_error (R := sample_runtime) None true (Some "TOK") None
           None 22 "down.example.org" false None tt
           (c_init_endpoint None "down.example.org" true)
           (Exception "No motley_cue service found on host")).
  left. reflexivity.
Defined.

(** [ssh --token TOK host ls]. *)
Lemma ssh_real_run_witness :
  exists mc_url tok user v,
    trace (ssh (R := sample_runtime) None true (Some "TOK") None None false 22
             "host" (Some "ls") tt)
    = [Called (c_init_endpoint None "host" true) (inr mc_url);
       Called (c_init_token (Some "TOK") None None mc_url true) (inr tok);
       Called (c_init_user mc_url tok true) (inr user);
       Called (ssh_transport_call "host" user tok 22 (Some "ls")) (inr v)].
Proof.
  apply (ssh_real_run (R := sample_runtime)). reflexivity.
Defined.

(** [ssh --dry-run --token TOK -p 2222 host ls]. *)
Lemma ssh_dry_run_witness :
  exists mc_url tok user password,
    trace (ssh (R := sample_runtime) None true (Some "TOK") None None true 2222
             "host" (Some "ls") tt)
    = [Called (c_init_endpoint None "host" true) (inr mc_url);
       Called (c_init_token (Some "TOK") None None mc_url true) (inr tok);
       Called (c_init_user mc_url tok true) (inr user);
       Called (c_str_init_token (Some "TOK") None None) (inr password);
       Printed (ssh_sshpass_cmd password (ssh_opts 2222) user "host" (Some "ls"))].
Proof.
  apply (ssh_dry_run (R := sample_runtime)). reflexivity.
Defined.

(** The command [ls] on the line of a dry run. *)
Lemma ssh_dry_run_command_witness :
  ssh_sshpass_cmd "TOK" "" "alice" "host" (Some "ls")
  = ssh_sshpass_cmd "TOK" "" "alice" "host" None ++ " '" ++ "ls" ++ "'".
Proof.
  destruct (ssh_dry_run_command (R := sample_runtime) None true (Some "TOK") None
              None 22 "host" "TOK" "" "alice" "ls" tt) as (_ & H).
  apply H. discriminate.
Defined.

(** [scp missing.txt host:/tmp] and [scp secret.txt host:/tmp] where the
    transfer fails. *)
Lemma scp_reports_error_witness :
  (printed
     (trace (scp (R := failing_runtime) None true (Some "TOK") None None false 22
               false false [local_file "missing.txt"; local_file "a.txt"]
               (remote_file "host" "/tmp") tt))
   = ["missing.txt: No such file or directory"] /\
   result (scp (R := failing_runtime) None true (Some "TOK") None None false 22
             false false [local_file "missing.txt"; local_file "a.txt"]
             (remote_file "host" "/tmp") tt)
   = inr tt) /\
  (printed
     (trace (scp (R := failing_runtime) None true (Some "TOK") None None false 22
               false false [local_file "secret.txt"] (remote_file "host" "/tmp") tt))
   = ["secret.txt: Permission denied"] /\
   result (scp (R := failing_runtime) None true (Some "TOK") None None false 22
             false false [local_file "secret.txt"] (remote_file "host" "/tmp") tt)
   = inr tt).
Proof.
  split.
  - apply (scp_reports_error (R := failing_runtime) None true (Some "TOK") None
             None 22 false false false
             [local_file "missing.txt"; local_file "a.txt"]
             (remote_file "host" "/tmp") tt
             (c_scp_put "host" "alice" "TOK" 22 "missing.txt" "/tmp" false false)
             (FileNotFoundError
                "[Errno 2] No such file or directory: 'missing.txt'"
                (PyStr "missing.txt"))).
    + reflexivity.
    + vm_compute. auto.
  - apply (scp_reports_error (R := failing_runtime) None true (Some "TOK") None
             None 22 false false false [local_file "secret.txt"]
             (remote_file "host" "/tmp") tt
             (c_scp_put "host" "alice" "TOK" 22 "secret.txt" "/tmp" false false)
             (PermissionError "[Errno 13] Permission denied: b'secret.txt'"
                (PyBytes "secret.txt"))).
    + reflexivity.
    + vm_compute. auto.
Defined.

(** [scp --dry-run --token TOK -r a.txt b.txt host:/tmp]. *)
Lemma scp_dry_run_upload_witness :
  exists password mc_url tok user,
    trace (scp (R := sample_runtime) None true (Some "TOK") None None true 22 true
             false [local_file "a.txt"; local_file "b.txt"]
             (remote_file "host" "/tmp") tt)
    = [Called (c_str_init_token (Some "TOK") None None) (inr password);
       Called (c_init_endpoint None "host" true) (inr mc_url);
       Called (c_init_token (Some "TOK") None None mc_url true) (inr tok);
       Called (c_init_user mc_url tok true) (inr user);
       Printed
         (scp_sshpass_cmd password (scp_opts true false 22)
            ++ join_operands
                 (map (fun src => get (path src) ".")
                    [local_file "a.txt"; local_file "b.txt"]
                    ++ [(user ++ "@" ++ "host" ++ ":"
                           ++ get (path (remote_file "host" "/tmp")) ".")%string])%list)].
Proof.
  apply (scp_dry_run_upload (R := sample_runtime)).
  - reflexivity.
  - repeat constructor.
  - reflexivity.
Defined.

(** [scp --token TOK h1:a b c .]: a is fetched, b is refused. *)
Lemma local_source_for_local_target_witness :
  result (scp (R := sample_runtime) None true (Some "TOK") None None false 22
            false false
            ([remote_file "h1" "a"] ++ local_file "b" :: [local_file "c"])
            (local_file ".") tt)
  = inr tt /\
  printed
    (trace (scp (R := sample_runtime) None true (Some "TOK") None None false 22
              false false
              ([remote_file "h1" "a"] ++ local_file "b" :: [local_file "c"])
              (local_file ".") tt))
  = [no_remote_host].
Proof.
  destruct (local_source_for_local_target (R := sample_runtime) None true
              (Some "TOK") None None 22 false false false
              [remote_file "h1" "a"] [local_file "c"] (local_file "b")
              (local_file ".") tt)
    as (_ & _ & H).
  - reflexivity.
  - reflexivity.
  - repeat constructor.
  - apply H. reflexivity.
Defined.

(** * Where exceptions of scp come from *)

Section Origins.

Context {R : Runtime}.

Lemma origin_ret {A : Type} (a : A) : raised_by_call_or_plain (ret a).
Proof.
  intros w e H. discriminate.
Qed.

Lemma origin_raise {A : Type} (msg : string) :
  raised_by_call_or_plain (@raise R A (Exception msg)).
Proof.
  intros w e H. unfold raise, result in H. simpl in H. injection H as <-.
  right. now exists msg.
Qed.

Lemma origin_call_out (c0 : call) : raised_by_call_or_plain (call_out c0).
Proof.
  intros w e. unfold call_out, result, trace.
  destruct (perform c0 w) as [r w1]. simpl. intros ->.
  left. exists c0. now left.
Qed.

Lemma origin_bind {A B : Type} (m : M A) (f : A -> M B) :
  raised_by_call_or_plain m -> (forall a, raised_by_call_or_plain (f a)) ->
  raised_by_call_or_plain (bind m f).
Proof.
  intros Hm Hf w e. specialize (Hm w e). unfold bind, trace, result in *.
  destruct (m w) as [[[e1|a] w1] t1]; simpl in *.
  - intros H. injection H as ->. destruct Hm as [[c Hc]|Hplain]; auto.
    left. now exists c.
  - specialize (Hf a w1 e). unfold trace, result in Hf.
    destruct (f a w1) as [[r2 w2] t2]; simpl in *.
    intros H. destruct (Hf H) as [[c Hc]|Hplain]; auto.
    left. exists c. apply in_or_app. now right.
Qed.

Variables (mc_endpoint : option string) (verify : bool)
          (token oa_account iss : option string)
          (port : Z) (recursive preserve_times : bool).

Lemma origin_resolve (h : string) (l : locals) :
  raised_by_call_or_plain (resolve mc_endpoint verify token oa_account iss h l).
Proof.
  unfold resolve, init_endpoint, init_token, init_user.
  repeat (apply origin_bind; [apply origin_call_out|intros ?]).
  apply origin_ret.
Qed.

Lemma origin_read (name : string) (v : option string) :
  raised_by_call_or_plain (read name v).
Proof.
  destruct v; simpl; [apply origin_ret|apply origin_raise].
Qed.

Lemma origin_call_proc (c0 : call) : raised_by_call_or_plain (call_proc c0).
Proof.
  unfold call_proc.
  apply origin_bind; [apply origin_call_out|intros ?; apply origin_ret].
Qed.

Lemma origin_scp_source (dry_run : bool) (dest_host : option string)
    (dest_path : string) (src : operand) (l : locals) :
  raised_by_call_or_plain
    (scp_source mc_endpoint verify token oa_account iss dry_run port recursive
       preserve_times dest_host dest_path src l).
Proof.
  unfold scp_source, scp_get, scp_put.
  apply origin_bind.
  - destruct (host src); [apply origin_resolve|apply origin_ret].
  - intros l1. destruct (host src), dest_host, dry_run;
      repeat first
        [ apply origin_raise
        | apply origin_ret
        | apply origin_read
        | apply origin_call_proc
        | apply origin_bind; [|intros ?] ].
Qed.

Lemma origin_scp_for (dry_run : bool) (dest_host : option string)
    (dest_path : string) (source : list operand) (l : locals) :
  raised_by_call_or_plain
    (scp_for mc_endpoint verify token oa_account iss dry_run port recursive
       preserve_times dest_host dest_path source l).
Proof.
  revert l. induction source as [|src rest IH]; intros l; simpl.
  - apply origin_ret.
  - apply origin_bind; [apply origin_scp_source|intros l1; apply IH].
Qed.

Lemma origin_scp_try (dry_run : bool) (source : list operand) (target : operand)
    (l : locals) :
  raised_by_call_or_plain
    (scp_try mc_endpoint verify token oa_account iss dry_run port recursive
       preserve_times source target l).
Proof.
  unfold scp_try. apply origin_bind.
  - destruct (host target); [apply origin_resolve|apply origin_ret].
  - intros l1. apply origin_bind; [apply origin_scp_for|].
    intros l2. unfold scp_print.
    destruct dry_run; [|apply origin_ret].
    destruct (host target).
    + apply origin_bind; [apply origin_read|].
      intros user w e H. discriminate.
    + intros w e H. discriminate.
Qed.

(** X8, lines 95-96 and 147-148: an exception leaves scp in two cases only.
    Either the run is a dry run and str_init_token raised it, before the
    try; or a call under the try raised a PermissionError and the decoding
    of its filename in the handler raised it. *)
Theorem scp_escapes_only (dry_run : bool) (source : list operand)
    (target : operand) (w : World) (e : exn) :
  result (scp mc_endpoint verify token oa_account iss dry_run port recursive
            preserve_times source target w) = inl e ->
  (dry_run = true /\
   fst (perform (c_str_init_token token oa_account iss) w) = inl e) \/
  (exists c msg filename,
     In (Called c (inl (PermissionError msg filename)))
       (trace (scp mc_endpoint verify token oa_account iss dry_run port recursive
                 preserve_times source target w)) /\
     decode utf8_decode filename = inl e).
Proof.
  assert (Htry : forall l w0,
             result (try_except
                       (scp_try mc_endpoint verify token oa_account iss dry_run
                          port recursive preserve_times source target l)
                       scp_except w0) = inl e ->
             exists c msg filename,
               In (Called c (inl (PermissionError msg filename)))
                 (trace (try_except
                           (scp_try mc_endpoint verify token oa_account iss dry_run
                              port recursive preserve_times source target l)
                           scp_except w0)) /\
               decode utf8_decode filename = inl e).
  { intros l w0. pose proof (origin_scp_try dry_run source target l w0) as Horigin.
    unfold try_except, trace, result in *.
    destruct (scp_try _ _ _ _ _ _ _ _ _ _ _ l w0) as [[[e1|[]] w1] t1]; simpl in *;
      [|discriminate].
    rewrite scp_except_run. simpl.
    destruct e1 as [msg f|msg f|msg f|msg]; try discriminate.
    destruct (decode utf8_decode f) as [e'|name] eqn:Hdecode; [|discriminate].
    intros H. injection H as ->.
    destruct (Horigin _ eq_refl) as [[c Hc]|[msg' Hplain]]; [|discriminate].
    exists c, msg, f. split; [|assumption]. apply in_or_app. now left. }
  unfold scp, scp_dry_run. destruct dry_run.
  - unfold bind, str_init_token, call_out, ret.
    destruct (perform (c_str_init_token token oa_account iss) w) as [[e0|password] w0];
      simpl.
    + unfold result. simpl. intros H. injection H as ->. now left.
    + specialize (Htry {| access_token := None; username := None;
                          sshpass_cmd :=
                            scp_sshpass_cmd password
                              (scp_opts recursive preserve_times port) |} w0).
      destruct (try_except _ _ w0) as [[r1 w1] t1]. unfold trace, result in *.
      simpl in *. intros H. destruct (Htry H) as (c & msg & f & Hin & Hdec).
      right. exists c, msg, f. split; [now right|assumption].
  - unfold bind, ret.
    specialize (Htry {| access_token := None; username := None; sshpass_cmd := "" |} w).
    destruct (try_except _ _ w) as [[r1 w1] t1]. unfold trace, result in *.
    simpl in *. intros H. right. exact (Htry H).
Qed.

End Origins.

(** [scp --dry-run a.txt host:/tmp] with no source of a token. *)
Lemma scp_escapes_only_witness :
  (true = true /\
   fst (perform (Runtime := sample_runtime) (c_str_init_token None None None) tt)
   = inl no_access_token) \/
  (exists c msg filename,
     In (Called c (inl (PermissionError msg filename)))
       (trace (scp (R := sample_runtime) None true None None None true 22 false
                 false [local_file "a.txt"] (remote_file "host" "/tmp") tt)) /\
     decode (utf8_decode (Runtime := sample_runtime)) filename = inl no_access_token).
Proof.
  apply (scp_escapes_only (R := sample_runtime) None true None None None 22 false
           false true [local_file "a.txt"] (remote_file "host" "/tmp") tt
           no_access_token).
  reflexivity.
Defined.

(** * Transfers with what the calls returned *)

Section TransferTraces.

Context {R : Runtime}.

Variables (mc_endpoint : option string) (verify : bool)
          (token oa_account iss : option string)
          (port : Z) (recursive preserve_times : bool).

(** The loop of a real run over local sources, for a remote target. *)
Lemma scp_for_upload_trace (dh dest_path tok user cmd : string)
    (source : list operand) :
  Forall (fun src => host src = None) source ->
  forall w,
    all_returned
      (trace (scp_for mc_endpoint verify token oa_account iss false port recursive
                preserve_times (Some dh) dest_path source
                {| access_token := Some tok; username := Some user;
                   sshpass_cmd := cmd |} w)) ->
    exists returns : list string,
      List.length returns = List.length source /\
      result (scp_for mc_endpoint verify token oa_account iss false port recursive
                preserve_times (Some dh) dest_path source
                {| access_token := Some tok; username := Some user;
                   sshpass_cmd := cmd |} w)
      = inr {| access_token := Some tok; username := Some user;
               sshpass_cmd := cmd |} /\
      trace (scp_for mc_endpoint verify token oa_account iss false port
               recursive preserve_times (Some dh) dest_path source
               {| access_token := Some tok; username := Some user;
                  sshpass_cmd := cmd |} w)
      = map (put_event dh user tok port recursive preserve_times dest_path)
          (combine source returns).
Proof.
  intros Hlocal. induction Hlocal as [|src rest Hsrc _ IH]; intros w.
  - intros _. exists []. repeat split.
  - simpl. unfold scp_source. rewrite Hsrc. open_run. simpl.
    next_call; [raised|].
    specialize (IH w0). unfold trace, result in IH.
    destruct (scp_for _ _ _ _ _ _ _ _ _ _ _ rest _ w0) as [[r2 ?] t2].
    simpl in *. intros H. apply all_returned_return in H.
    destruct (IH H) as (returns & Hlen & Hr & Ht).
    exists (v :: returns). split; [simpl; now rewrite Hlen|].
    split; [assumption|]. simpl. now rewrite Ht.
Qed.

(** The loop of a real run over remote sources, for a local target. *)
Lemma scp_for_download_trace (dest_path : string) (source : list operand) :
  Forall (fun src => is_remote src = true) source ->
  forall l w,
    all_returned
      (trace (scp_for mc_endpoint verify token oa_account iss false port recursive
                preserve_times None dest_path source l w)) ->
    exists transfers : list (session * string),
      List.length transfers = List.length source /\
      (exists l',
         result (scp_for mc_endpoint verify token oa_account iss false port
                   recursive preserve_times None dest_path source l w) = inr l') /\
      trace (scp_for mc_endpoint verify token oa_account iss false port
               recursive preserve_times None dest_path source l w)
      = flat_map
          (fetch_events mc_endpoint verify token oa_account iss port recursive
             preserve_times dest_path)
          (combine source transfers).
Proof.
  intros Hremote. induction Hremote as [|src rest Hsrc _ IH]; intros l w.
  - intros _. exists []. repeat split. now exists l.
  - simpl. unfold scp_source, resolve, is_remote in *.
    destruct (host src) as [sh|] eqn:Hhost; [|discriminate].
    open_run. simpl. repeat next_call; try raised.
    match goal with
    | |- context [scp_for _ _ _ _ _ _ _ _ _ _ _ rest ?l1 ?w1] =>
        specialize (IH l1 w1); unfold trace, result in IH;
        destruct (scp_for mc_endpoint verify token oa_account iss false port
                    recursive preserve_times None dest_path rest l1 w1)
          as [[r2 ?] t2]
    end.
    simpl in *. intros H. do 4 apply all_returned_return in H.
    destruct (IH H) as (transfers & Hlen & (l' & Hr) & Ht).
    exists ((v, v0, v1, v2) :: transfers). split; [simpl; now rewrite Hlen|].
    split; [now exists l'|].
    simpl. rewrite Hhost. simpl. now rewrite Ht.
Qed.

(** The loop of a dry run over remote sources, for a local target. *)
Lemma scp_for_dry_run_download_trace (dest_path : string) (source : list operand) :
  Forall (fun src => is_remote src = true) source ->
  forall l w,
    all_returned
      (trace (scp_for mc_endpoint verify token oa_account iss true port recursive
                preserve_times None dest_path source l w)) ->
    exists sessions : list session,
      List.length sessions = List.length source /\
      (exists l',
         result (scp_for mc_endpoint verify token oa_account iss true port
                   recursive preserve_times None dest_path source l w) = inr l' /\
         sshpass_cmd l'
         = sshpass_cmd l
             ++ join_operands (map remote_operand (combine source sessions))) /\
      trace (scp_for mc_endpoint verify token oa_account iss true port
               recursive preserve_times None dest_path source l w)
      = flat_map (resolve_events mc_endpoint verify token oa_account iss)
          (combine source sessions).
Proof.
  intros Hremote. induction Hremote as [|src rest Hsrc _ IH]; intros l w.
  - intros _. exists []. repeat split. exists l. split; [reflexivity|].
    simpl. now rewrite append_nil_r.
  - simpl. unfold scp_source, resolve, is_remote in *.
    destruct (host src) as [sh|] eqn:Hhost; [|discriminate].
    open_run. simpl. repeat next_call; try raised.
    match goal with
    | |- context [scp_for _ _ _ _ _ _ _ _ _ _ _ rest ?l1 ?w1] =>
        specialize (IH l1 w1); unfold trace, result in IH;
        destruct (scp_for mc_endpoint verify token oa_account iss true port
                    recursive preserve_times None dest_path rest l1 w1)
          as [[r2 ?] t2]
    end.
    simpl in *. intros H. do 3 apply all_returned_return in H.
    destruct (IH H) as (sessions & Hlen & (l' & Hr & Hcmd) & Ht).
    exists ((v, v0, v1) :: sessions). split; [simpl; now rewrite Hlen|].
    split.
    + exists l'. split; [assumption|]. rewrite Hcmd. simpl. rewrite Hhost. simpl.
      now rewrite (append_assoc (sshpass_cmd l)).
    + simpl. rewrite Hhost. simpl. now rewrite Ht.
Qed.

(** A dry run with local sources and a remote target, every call returning. *)
Lemma scp_dry_run_upload_run (source : list operand) (target : operand)
    (dh : string) (w : World) :
  host target = Some dh ->
  Forall (fun src => host src = None) source ->
  all_returned
    (trace (scp mc_endpoint verify token oa_account iss true port recursive
              preserve_times source target w)) ->
  exists password mc_url tok user,
    trace (scp mc_endpoint verify token oa_account iss true port recursive
             preserve_times source target w)
    = [Called (c_str_init_token token oa_account iss) (inr password);
       Called (c_init_endpoint mc_endpoint dh verify) (inr mc_url);
       Called (c_init_token token oa_account iss mc_url verify) (inr tok);
       Called (c_init_user mc_url tok verify) (inr user);
       Printed
         (scp_sshpass_cmd password (scp_opts recursive preserve_times port)
            ++ join_operands
                 (map (fun src => get (path src) ".") source
                    ++ [(user ++ "@" ++ dh ++ ":" ++ get (path target) ".")%string])%list)].
Proof.
  intros Htarget Hlocal. destruct target as [th tp]. simpl in Htarget. subst th.
  unfold scp, scp_dry_run, scp_try, resolve, scp_print. open_run. simpl.
  repeat next_call; try raised.
  rewrite (scp_for_dry_run_upload mc_endpoint verify token oa_account iss port
             recursive preserve_times dh (get tp ".") source Hlocal). simpl.
  intros _. exists v, v0, v1, v2. do 5 f_equal.
  rewrite join_operands_app. simpl.
  now rewrite append_nil_r, !append_assoc.
Qed.

(** A dry run with remote sources and a local target, every call returning. *)
Lemma scp_dry_run_download_run (source : list operand) (target : operand)
    (w : World) :
  host target = None ->
  Forall (fun src => is_remote src = true) source ->
  all_returned
    (trace (scp mc_endpoint verify token oa_account iss true port recursive
              preserve_times source target w)) ->
  exists (password : string) (sessions : list session),
    List.length sessions = List.length source /\
    trace (scp mc_endpoint verify token oa_account iss true port recursive
             preserve_times source target w)
    = (Called (c_str_init_token token oa_account iss) (inr password)
       :: flat_map (resolve_events mc_endpoint verify token oa_account iss)
            (combine source sessions)
       ++ [Printed
             (scp_sshpass_cmd password (scp_opts recursive preserve_times port)
                ++ join_operands
                     (map remote_operand (combine source sessions)
                        ++ [get (path target) "."])%list)])%list.
Proof.
  intros Htarget Hremote. destruct target as [th tp]. simpl in Htarget. subst th.
  unfold scp, scp_dry_run, scp_try, scp_print. open_run. simpl.
  next_call; [raised|].
  pose proof (scp_for_dry_run_download_trace (get tp ".") source Hremote
                {| access_token := None; username := None;
                   sshpass_cmd :=
                     scp_sshpass_cmd v (scp_opts recursive preserve_times port) |}
                w0) as Hloop.
  unfold trace, result in Hloop.
  destruct (scp_for _ _ _ _ _ _ _ _ _ _ _ source _ w0) as [[[e2|l2] ?] t2].
  - rewrite scp_except_run. simpl. intros H.
    apply all_returned_return in H. apply all_returned_app in H as [H _].
    destruct (Hloop H) as (_ & _ & (l' & Hr & _) & _). discriminate.
  - simpl. intros H.
    apply all_returned_return in H. apply all_returned_app in H as [H _].
    destruct (Hloop H) as (sessions & Hlen & (l' & Hr & Hcmd) & Ht).
    injection Hr as <-. cbn [snd] in Ht.
    exists v, sessions. split; [assumption|].
    change (sshpass_cmd
              {| access_token := None; username := None;
                 sshpass_cmd :=
                   scp_sshpass_cmd v (scp_opts recursive preserve_times port) |})
      with (scp_sshpass_cmd v (scp_opts recursive preserve_times port)) in Hcmd.
    rewrite Ht, Hcmd, join_operands_app, append_assoc. do 4 f_equal.
    simpl. now rewrite append_nil_r.
Qed.

End TransferTraces.

Section TransferClaims.

Context {R : Runtime}.

Variables (mc_endpoint : option string) (verify : bool)
          (token oa_account iss : option string)
          (port : Z) (recursive preserve_times : bool).

(** X10, lines 109-112 and 134-140: a real run with local sources and a
    remote target, in which every call returns, resolves endpoint, token
    and username of the target host once, each from what the call before
    returned, and then puts the sources in their order to this host, as
    the user that init_user returned and with the token that init_token
    returned, with the port, the two flags and "." for a missing path; it
    has no other event, so it writes nothing, and it returns. *)
Theorem scp_upload (source : list operand) (target : operand) (dh : string)
    (w : World) :
  host target = Some dh ->
  Forall (fun src => host src = None) source ->
  all_returned
    (trace (scp mc_endpoint verify token oa_account iss false port recursive
              preserve_times source target w)) ->
  exists (mc_url tok user : string) (returns : list string),
    List.length returns = List.length source /\
    trace (scp mc_endpoint verify token oa_account iss false port recursive
             preserve_times source target w)
    = (Called (c_init_endpoint mc_endpoint dh verify) (inr mc_url)
       :: Called (c_init_token token oa_account iss mc_url verify) (inr tok)
       :: Called (c_init_user mc_url tok verify) (inr user)
       :: map (put_event dh user tok port recursive preserve_times
                 (get (path target) "."))
            (combine source returns)) /\
    result (scp mc_endpoint verify token oa_account iss false port recursive
              preserve_times source target w) = inr tt.
Proof.
  intros Htarget Hlocal. destruct target as [th tp]. simpl in Htarget. subst th.
  unfold scp, scp_dry_run, scp_try, resolve, scp_print. open_run. simpl.
  repeat next_call; try raised.
  pose proof (scp_for_upload_trace mc_endpoint verify token oa_account iss port
                recursive preserve_times dh (get tp ".") v0 v1 "" source Hlocal w2)
    as Hloop.
  unfold trace, result in *.
  destruct (scp_for _ _ _ _ _ _ _ _ _ _ _ source _ w2) as [[[e2|l2] ?] t2];
    simpl in *.
  - rewrite scp_except_run. simpl. intros H.
    do 3 apply all_returned_return in H. apply all_returned_app in H as [H _].
    destruct (Hloop H) as (_ & _ & Hr & _). discriminate.
  - rewrite app_nil_r. intros H. do 3 apply all_returned_return in H.
    destruct (Hloop H) as (returns & Hlen & _ & Ht).
    exists v, v0, v1, returns. rewrite Ht. now repeat split.
Qed.

(** X11, lines 117-120 and 127-133: a real run with remote sources and a
    local target, in which every call returns, takes the sources in their
    order and for each one resolves endpoint, token and username of the
    host of this source, each from what the call before returned, and
    fetches it from this host as the user and with the token that these
    calls returned, to the path of the target; it has no other event, so
    it writes nothing, and it returns. *)
Theorem scp_download (source : list operand) (target : operand) (w : World) :
  host target = None ->
  Forall (fun src => is_remote src = true) source ->
  all_returned
    (trace (scp mc_endpoint verify token oa_account iss false port recursive
              preserve_times source target w)) ->
  exists transfers : list (session * string),
    List.length transfers = List.length source /\
    trace (scp mc_endpoint verify token oa_account iss false port recursive
             preserve_times source target w)
    = flat_map
        (fetch_events mc_endpoint verify token oa_account iss port recursive
           preserve_times (get (path target) "."))
        (combine source transfers) /\
    result (scp mc_endpoint verify token oa_account iss false port recursive
              preserve_times source target w) = inr tt.
Proof.
  intros Htarget Hremote. destruct target as [th tp]. simpl in Htarget. subst th.
  unfold scp, scp_dry_run, scp_try, scp_print. open_run. simpl.
  pose proof (scp_for_download_trace mc_endpoint verify token oa_account iss port
                recursive preserve_times (get tp ".") source Hremote
                {| access_token := None; username := None; sshpass_cmd := "" |} w)
    as Hloop.
  unfold trace, result in *.
  destruct (scp_for _ _ _ _ _ _ _ _ _ _ _ source _ w) as [[[e2|l2] ?] t2];
    simpl in *.
  - rewrite scp_except_run. simpl. intros H.
    apply all_returned_app in H as [H _].
    destruct (Hloop H) as (_ & _ & (l' & Hr) & _). discriminate.
  - rewrite app_nil_r. intros H.
    destruct (Hloop H) as (transfers & Hlen & _ & Ht).
    exists transfers. rewrite Ht. now repeat split.
Qed.

(** X13, lines 117-120, 127-129 and 144-146: a dry run with remote sources
    and a local target, in which every call returns, renders the password,
    resolves for each source in turn the endpoint, token and username of
    its host, each from what the call before returned, calls no transport
    and then writes one line: the sshpass prefix with the password that
    str_init_token returned, the option segment, each source as
    user@host:path with the user that init_user returned for its own host,
    and the path of the target last. *)
Theorem scp_dry_run_download (source : list operand) (target : operand)
    (w : World) :
  host target = None ->
  Forall (fun src => is_remote src = true) source ->
  all_returned
    (trace (scp mc_endpoint verify token oa_account iss true port recursive
              preserve_times source target w)) ->
  exists (password : string) (sessions : list session),
    List.length sessions = List.length source /\
    trace (scp mc_endpoint verify token oa_account iss true port recursive
             preserve_times source target w)
    = (Called (c_str_init_token token oa_account iss) (inr password)
       :: flat_map (resolve_events mc_endpoint verify token oa_account iss)
            (combine source sessions)
       ++ [Printed
             (scp_sshpass_cmd password (scp_opts recursive preserve_times port)
                ++ join_operands
                     (map remote_operand (combine source sessions)
                        ++ [get (path target) "."])%list)])%list.
Proof.
  apply scp_dry_run_download_run.
Qed.

End TransferClaims.

Section RevisedClaims.

Context {R : Runtime}.

Variables (mc_endpoint : option string) (verify : bool)
          (token oa_account iss : option string).

(** C4: when the command has come to the source [s] (the start of the
    line is built, the target is resolved, the sources before [s] are
    processed) and the processing of [s] raises, the loop ends there, the
    exception leaves the whole body of the try and goes to the one handler
    of the command, which runs next and last: the run of scp is the events
    up to the raise followed by those of the handler, and it is the run
    of scp on the list cut after [s]; the sources after [s] add no event
    and change nothing. *)
Theorem failing_source_ends_command
    (dry_run : bool) (port : Z) (recursive preserve_times : bool)
    (target : operand) (pre post : list operand) (s : operand)
    (l0 l l1 : locals) (w w0 w1 w2 w3 : World) (tp t0 t1 t2 : list event)
    (e : exn) :
  scp_dry_run token oa_account iss dry_run port recursive preserve_times w
  = (inr l0, w0, tp) ->
  match host target with
  | Some h => resolve mc_endpoint verify token oa_account iss h l0
  | None => ret l0
  end w0 = (inr l, w1, t0) ->
  scp_for mc_endpoint verify token oa_account iss dry_run port recursive
    preserve_times (host target) (get (path target) ".") pre l w1
  = (inr l1, w2, t1) ->
  scp_source mc_endpoint verify token oa_account iss dry_run port recursive
    preserve_times (host target) (get (path target) ".") s l1 w2
  = (inl e, w3, t2) ->
  scp_for mc_endpoint verify token oa_account iss dry_run port recursive
    preserve_times (host target) (get (path target) ".") (pre ++ s :: post) l w1
  = (inl e, w3, (t1 ++ t2)%list) /\
  scp_try mc_endpoint verify token oa_account iss dry_run port recursive
    preserve_times (pre ++ s :: post) target l0 w0
  = (inl e, w3, (t0 ++ t1 ++ t2)%list) /\
  scp mc_endpoint verify token oa_account iss dry_run port recursive
    preserve_times (pre ++ s :: post) target w
  = (match scp_except e w3 with
     | (r, w4, t3) => (r, w4, (tp ++ (t0 ++ t1 ++ t2) ++ t3)%list)
     end) /\
  scp mc_endpoint verify token oa_account iss dry_run port recursive
    preserve_times (pre ++ s :: post) target w
  = scp mc_endpoint verify token oa_account iss dry_run port recursive
      preserve_times (pre ++ [s]) target w.
Proof.
  intros Hstart Hfirst Hpre Hs.
  assert (Hloop : forall rest,
             scp_for mc_endpoint verify token oa_account iss dry_run port recursive
               preserve_times (host target) (get (path target) ".")
               (pre ++ s :: rest) l w1
             = (inl e, w3, (t1 ++ t2)%list)).
  { intros rest. rewrite scp_for_app. unfold bind at 1. rewrite Hpre.
    simpl. unfold bind. now rewrite Hs. }
  assert (Htry : forall rest,
             scp_try mc_endpoint verify token oa_account iss dry_run port recursive
               preserve_times (pre ++ s :: rest) target l0 w0
             = (inl e, w3, (t0 ++ t1 ++ t2)%list)).
  { intros rest. unfold scp_try, bind. now rewrite Hfirst, Hloop. }
  assert (Hscp : forall rest,
             scp mc_endpoint verify token oa_account iss dry_run port recursive
               preserve_times (pre ++ s :: rest) target w
             = (match scp_except e w3 with
                | (r, w4, t3) => (r, w4, (tp ++ (t0 ++ t1 ++ t2) ++ t3)%list)
                end)).
  { intros rest. unfold scp, bind. rewrite Hstart. unfold try_except.
    rewrite Htry. now destruct (scp_except e w3) as [[r w4] t3]. }
  split; [apply Hloop|]. split; [apply Htry|]. split; [apply Hscp|].
  now rewrite !Hscp.
Qed.

Lemma scp_opts_default_port (recursive preserve_times : bool) :
  scp_opts recursive preserve_times SSH_PORT
  = (if recursive then " -r" else "") ++ (if preserve_times then " -p" else "").
Proof.
  now destruct recursive, preserve_times.
Qed.

Lemma scp_opts_port_zero (recursive preserve_times : bool) :
  scp_opts recursive preserve_times 0
  = (if recursive then " -r" else "") ++ (if preserve_times then " -p" else "").
Proof.
  now destruct recursive, preserve_times.
Qed.

(** C8: in a dry run with the port at its default 22 in which every call
    returns, ssh writes its command line with an empty option segment,
    between the password that str_init_token returned and the user that
    init_user returned; scp writes one whose option segment holds -r and
    -p as far as they are set and no port, between that password and the
    operands, which are the paths of the sources and the users that
    init_user returned with their hosts.  And in general -P, -r and -p
    are absent from the option segment of scp when the option has its
    default (port 22, not recursive, times not preserved). *)
Theorem default_options_are_omitted
    (hostname : string) (command : option string)
    (port : Z) (recursive preserve_times : bool)
    (source : list operand) (target : operand) (w : World) :
  (all_returned
     (trace (ssh mc_endpoint verify token oa_account iss true SSH_PORT hostname
               command w)) ->
   exists mc_url tok user password,
     trace (ssh mc_endpoint verify token oa_account iss true SSH_PORT hostname
              command w)
     = [Called (c_init_endpoint mc_endpoint hostname verify) (inr mc_url);
        Called (c_init_token token oa_account iss mc_url verify) (inr tok);
        Called (c_init_user mc_url tok verify) (inr user);
        Called (c_str_init_token token oa_account iss) (inr password);
        Printed (ssh_sshpass_cmd password "" user hostname command)]) /\
  (forall dh,
     host target = Some dh ->
     Forall (fun src => host src = None) source ->
     all_returned
       (trace (scp mc_endpoint verify token oa_account iss true SSH_PORT recursive
                 preserve_times source target w)) ->
     exists password mc_url tok user,
       trace (scp mc_endpoint verify token oa_account iss true SSH_PORT recursive
                preserve_times source target w)
       = [Called (c_str_init_token token oa_account iss) (inr password);
          Called (c_init_endpoint mc_endpoint dh verify) (inr mc_url);
          Called (c_init_token token oa_account iss mc_url verify) (inr tok);
          Called (c_init_user mc_url tok verify) (inr user);
          Printed
            (scp_sshpass_cmd password
               ((if recursive then " -r" else "")
                  ++ (if preserve_times then " -p" else ""))
               ++ join_operands
                    (map (fun src => get (path src) ".") source
                       ++ [(user ++ "@" ++ dh ++ ":"
                              ++ get (path target) ".")%string])%list)]) /\
  (host target = None ->
   Forall (fun src => is_remote src = true) source ->
   all_returned
     (trace (scp mc_endpoint verify token oa_account iss true SSH_PORT recursive
               preserve_times source target w)) ->
   exists (password : string) (sessions : list session),
     List.length sessions = List.length source /\
     trace (scp mc_endpoint verify token oa_account iss true SSH_PORT recursive
              preserve_times source target w)
     = (Called (c_str_init_token token oa_account iss) (inr password)
        :: flat_map (resolve_events mc_endpoint verify token oa_account iss)
             (combine source sessions)
        ++ [Printed
              (scp_sshpass_cmd password
                 ((if recursive then " -r" else "")
                    ++ (if preserve_times then " -p" else ""))
                 ++ join_operands
                      (map remote_operand (combine source sessions)
                         ++ [get (path target) "."])%list)])%list) /\
  ssh_opts SSH_PORT = "" /\
  count_sub "-P" (scp_opts recursive preserve_times SSH_PORT) = 0%nat /\
  count_sub "-r" (scp_opts false preserve_times port) = 0%nat /\
  count_sub "-p" (scp_opts recursive false port) = 0%nat.
Proof.
  split; [|split; [|split; [|split; [|split; [|split]]]]].
  - intros H.
    exact (ssh_dry_run_trace mc_endpoint verify token oa_account iss SSH_PORT
             hostname command w H).
  - intros dh Htarget Hlocal H. rewrite <- scp_opts_default_port.
    exact (scp_dry_run_upload_run mc_endpoint verify token oa_account iss SSH_PORT
             recursive preserve_times source target dh w Htarget Hlocal H).
  - intros Htarget Hremote H. rewrite <- scp_opts_default_port.
    exact (scp_dry_run_download_run mc_endpoint verify token oa_account iss
             SSH_PORT recursive preserve_times source target w Htarget Hremote H).
  - reflexivity.
  - now rewrite scp_opts_count_P.
  - now rewrite scp_opts_count_r.
  - now rewrite scp_opts_count_p.
Qed.

(** C10: in a dry run with the port set to 0, which is not the default 22,
    in which every call returns, ssh writes its command line with an empty
    option segment, between the password that str_init_token returned and
    the user that init_user returned, and scp writes one whose option
    segment holds -r and -p as far as they are set and no port, between
    that password and the operands: the guard of lines 65 and 102 asks for
    a port that is true as well as different from 22. *)
Theorem port_zero_is_omitted
    (hostname : string) (command : option string)
    (recursive preserve_times : bool)
    (source : list operand) (target : operand) (w : World) :
  0 <> SSH_PORT /\
  (all_returned
     (trace (ssh mc_endpoint verify token oa_account iss true 0 hostname
               command w)) ->
   exists mc_url tok user password,
     trace (ssh mc_endpoint verify token oa_account iss true 0 hostname command w)
     = [Called (c_init_endpoint mc_endpoint hostname verify) (inr mc_url);
        Called (c_init_token token oa_account iss mc_url verify) (inr tok);
        Called (c_init_user mc_url tok verify) (inr user);
        Called (c_str_init_token token oa_account iss) (inr password);
        Printed (ssh_sshpass_cmd password "" user hostname command)]) /\
  (forall dh,
     host target = Some dh ->
     Forall (fun src => host src = None) source ->
     all_returned
       (trace (scp mc_endpoint verify token oa_account iss true 0 recursive
                 preserve_times source target w)) ->
     exists password mc_url tok user,
       trace (scp mc_endpoint verify token oa_account iss true 0 recursive
                preserve_times source target w)
       = [Called (c_str_init_token token oa_account iss) (inr password);
          Called (c_init_endpoint mc_endpoint dh verify) (inr mc_url);
          Called (c_init_token token oa_account iss mc_url verify) (inr tok);
          Called (c_init_user mc_url tok verify) (inr user);
          Printed
            (scp_sshpass_cmd password
               ((if recursive then " -r" else "")
                  ++ (if preserve_times then " -p" else ""))
               ++ join_operands
                    (map (fun src => get (path src) ".") source
                       ++ [(user ++ "@" ++ dh ++ ":"
                              ++ get (path target) ".")%string])%list)]) /\
  (host target = None ->
   Forall (fun src => is_remote src = true) source ->
   all_returned
     (trace (scp mc_endpoint verify token oa_account iss true 0 recursive
               preserve_times source target w)) ->
   exists (password : string) (sessions : list session),
     List.length sessions = List.length source /\
     trace (scp mc_endpoint verify token oa_account iss true 0 recursive
              preserve_times source target w)
     = (Called (c_str_init_token token oa_account iss) (inr password)
        :: flat_map (resolve_events mc_endpoint verify token oa_account iss)
             (combine source sessions)
        ++ [Printed
              (scp_sshpass_cmd password
                 ((if recursive then " -r" else "")
                    ++ (if preserve_times then " -p" else ""))
                 ++ join_operands
                      (map remote_operand (combine source sessions)
                         ++ [get (path target) "."])%list)])%list) /\
  ssh_opts 0 = "" /\
  count_sub "-P" (scp_opts recursive preserve_times 0) = 0%nat.
Proof.
  split; [discriminate|]. split; [|split; [|split; [|split]]].
  - intros H.
    exact (ssh_dry_run_trace mc_endpoint verify token oa_account iss 0
             hostname command w H).
  - intros dh Htarget Hlocal H. rewrite <- scp_opts_port_zero.
    exact (scp_dry_run_upload_run mc_endpoint verify token oa_account iss 0
             recursive preserve_times source target dh w Htarget Hlocal H).
  - intros Htarget Hremote H. rewrite <- scp_opts_port_zero.
    exact (scp_dry_run_download_run mc_endpoint verify token oa_account iss
             0 recursive preserve_times source target w Htarget Hremote H).
  - reflexivity.
  - now rewrite scp_opts_count_P.
Qed.

End RevisedClaims.

(** * The revised statements on the sample runtime *)

(** C4 at [scp --token TOK h1:a b c .]: the second source is local like the
    target and raises; the third is not looked at, and the handler writes
    the refusal. *)
Lemma failing_source_ends_command_witness :
  scp (R := sample_runtime) None true (Some "TOK") None None false 22 false false
    ([remote_file "h1" "a"] ++ local_file "b" :: [local_file "c"])
    (local_file ".") tt
  = (inr tt, tt,
     [Called (c_init_endpoint None "h1" true) (inr "https://h1");
      Called (c_init_token (Some "TOK") None None "https://h1" true) (inr "TOK");
      Called (c_init_user "https://h1" "TOK" true) (inr "alice");
      Called (c_scp_get "h1" "alice" "TOK" 22 "a" "." false false) (inr "");
      Printed no_remote_host]) /\
  scp (R := sample_runtime) None true (Some "TOK") None None false 22 false false
    ([remote_file "h1" "a"] ++ local_file "b" :: [local_file "c"])
    (local_file ".") tt
  = scp (R := sample_runtime) None true (Some "TOK") None None false 22 false
      false ([remote_file "h1" "a"] ++ [local_file "b"]) (local_file ".") tt.
Proof.
  destruct (failing_source_ends_command (R := sample_runtime) None true
              (Some "TOK") None None false 22 false false (local_file ".")
              [remote_file "h1" "a"] [local_file "c"] (local_file "b")
              {| access_token := None; username := None; sshpass_cmd := "" |}
              {| access_token := None; username := None; sshpass_cmd := "" |}
              {| access_token := Some "TOK"; username := Some "alice";
                 sshpass_cmd := "" |}
              tt tt tt tt tt [] []
              [Called (c_init_endpoint None "h1" true) (inr "https://h1");
               Called (c_init_token (Some "TOK") None None "https://h1" true)
                 (inr "TOK");
               Called (c_init_user "https://h1" "TOK" true) (inr "alice");
               Called (c_scp_get "h1" "alice" "TOK" 22 "a" "." false false)
                 (inr "")]
              [] (Exception no_remote_host))
    as (_ & _ & Hrun & Hcut); try reflexivity.
  split; [|exact Hcut]. rewrite Hrun. reflexivity.
Defined.

(** C8 at [ssh --dry-run --token TOK host],
    [scp --dry-run --token TOK -r a.txt host:/tmp] and
    [scp --dry-run --token TOK -r h1:a .]. *)
Lemma default_options_are_omitted_witness :
  (exists mc_url tok user password,
     trace (ssh (R := sample_runtime) None true (Some "TOK") None None true
              SSH_PORT "host" None tt)
     = [Called (c_init_endpoint None "host" true) (inr mc_url);
        Called (c_init_token (Some "TOK") None None mc_url true) (inr tok);
        Called (c_init_user mc_url tok true) (inr user);
        Called (c_str_init_token (Some "TOK") None None) (inr password);
        Printed (ssh_sshpass_cmd password "" user "host" None)]) /\
  (exists password mc_url tok user,
     trace (scp (R := sample_runtime) None true (Some "TOK") None None true
              SSH_PORT true false [local_file "a.txt"]
              (remote_file "host" "/tmp") tt)
     = [Called (c_str_init_token (Some "TOK") None None) (inr password);
        Called (c_init_endpoint None "host" true) (inr mc_url);
        Called (c_init_token (Some "TOK") None None mc_url true) (inr tok);
        Called (c_init_user mc_url tok true) (inr user);
        Printed
          (scp_sshpass_cmd password (" -r" ++ "")
             ++ join_operands
                  (map (fun src => get (path src) ".") [local_file "a.txt"]
                     ++ [(user ++ "@" ++ "host" ++ ":"
                            ++ get (path (remote_file "host" "/tmp")) ".")%string])%list)]) /\
  (exists (password : string) (sessions : list session),
     List.length sessions = 1%nat /\
     trace (scp (R := sample_runtime) None true (Some "TOK") None None true
              SSH_PORT true false [remote_file "h1" "a"] (local_file ".") tt)
     = (Called (c_str_init_token (Some "TOK") None None) (inr password)
        :: flat_map (resolve_events None true (Some "TOK") None None)
             (combine [remote_file "h1" "a"] sessions)
        ++ [Printed
              (scp_sshpass_cmd password (" -r" ++ "")
                 ++ join_operands
                      (map remote_operand (combine [remote_file "h1" "a"] sessions)
                         ++ [get (path (local_file ".")) "."])%list)])%list).
Proof.
  split; [|split].
  - destruct (default_options_are_omitted (R := sample_runtime) None true
                (Some "TOK") None None "host" None 22 true false
                [local_file "a.txt"] (remote_file "host" "/tmp") tt)
      as (Hssh & _).
    apply Hssh. reflexivity.
  - destruct (default_options_are_omitted (R := sample_runtime) None true
                (Some "TOK") None None "host" None 22 true false
                [local_file "a.txt"] (remote_file "host" "/tmp") tt)
      as (_ & Hup & _).
    apply (Hup "host"); [reflexivity|repeat constructor|reflexivity].
  - destruct (default_options_are_omitted (R := sample_runtime) None true
                (Some "TOK") None None "host" None 22 true false
                [remote_file "h1" "a"] (local_file ".") tt)
      as (_ & _ & Hdown & _).
    apply Hdown; [reflexivity|repeat constructor|reflexivity].
Defined.

(** C10 at [ssh --dry-run --token TOK -p 0 host],
    [scp --dry-run --token TOK -P 0 -p a.txt host:/tmp] and
    [scp --dry-run --token TOK -P 0 -p h1:a .]. *)
Lemma port_zero_is_omitted_witness :
  (exists mc_url tok user password,
     trace (ssh (R := sample_runtime) None true (Some "TOK") None None true
              0 "host" None tt)
     = [Called (c_init_endpoint None "host" true) (inr mc_url);
        Called (c_init_token (Some "TOK") None None mc_url true) (inr tok);
        Called (c_init_user mc_url tok true) (inr user);
        Called (c_str_init_token (Some "TOK") None None) (inr password);
        Printed (ssh_sshpass_cmd password "" user "host" None)]) /\
  (exists password mc_url tok user,
     trace (scp (R := sample_runtime) None true (Some "TOK") None None true
              0 false true [local_file "a.txt"] (remote_file "host" "/tmp") tt)
     = [Called (c_str_init_token (Some "TOK") None None) (inr password);
        Called (c_init_endpoint None "host" true) (inr mc_url);
        Called (c_init_token (Some "TOK") None None mc_url true) (inr tok);
        Called (c_init_user mc_url tok true) (inr user);
        Printed
          (scp_sshpass_cmd password ("" ++ " -p")
             ++ join_operands
                  (map (fun src => get (path src) ".") [local_file "a.txt"]
                     ++ [(user ++ "@" ++ "host" ++ ":"
                            ++ get (path (remote_file "host" "/tmp")) ".")%string])%list)]) /\
  (exists (password : string) (sessions : list session),
     List.length sessions = 1%nat /\
     trace (scp (R := sample_runtime) None true (Some "TOK") None None true
              0 false true [remote_file "h1" "a"] (local_file ".") tt)
     = (Called (c_str_init_token (Some "TOK") None None) (inr password)
        :: flat_map (resolve_events None true (Some "TOK") None None)
             (combine [remote_file "h1" "a"] sessions)
        ++ [Printed
              (scp_sshpass_cmd password ("" ++ " -p")
                 ++ join_operands
                      (map remote_operand (combine [remote_file "h1" "a"] sessions)
                         ++ [get (path (local_file ".")) "."])%list)])%list).
Proof.
  split; [|split].
  - destruct (port_zero_is_omitted (R := sample_runtime) None true
                (Some "TOK") None None "host" None false true
                [local_file "a.txt"] (remote_file "host" "/tmp") tt)
      as (_ & Hssh & _).
    apply Hssh. reflexivity.
  - destruct (port_zero_is_omitted (R := sample_runtime) None true
                (Some "TOK") None None "host" None false true
                [local_file "a.txt"] (remote_file "host" "/tmp") tt)
      as (_ & _ & Hup & _).
    apply (Hup "host"); [reflexivity|repeat constructor|reflexivity].
  - destruct (port_zero_is_omitted (R := sample_runtime) None true
                (Some "TOK") None None "host" None false true
                [remote_file "h1" "a"] (local_file ".") tt)
      as (_ & _ & _ & Hdown & _).
    apply Hdown; [reflexivity|repeat constructor|reflexivity].
Defined.

(** X10 at [scp --token TOK -r a.txt b host:/tmp], where the second source
    has no path. *)
Lemma scp_upload_witness :
  exists (mc_url tok user : string) (returns : list string),
    List.length returns = 2%nat /\
    trace (scp (R := sample_runtime) None true (Some "TOK") None None false 22
             true false [local_file "a.txt"; {| host := None; path := None |}]
             (remote_file "host" "/tmp") tt)
    = (Called (c_init_endpoint None "host" true) (inr mc_url)
       :: Called (c_init_token (Some "TOK") None None mc_url true) (inr tok)
       :: Called (c_init_user mc_url tok true) (inr user)
       :: map (put_event "host" user tok 22 true false
                 (get (path (remote_file "host" "/tmp")) "."))
            (combine [local_file "a.txt"; {| host := None; path := None |}]
               returns)) /\
    result (scp (R := sample_runtime) None true (Some "TOK") None None false 22
              true false [local_file "a.txt"; {| host := None; path := None |}]
              (remote_file "host" "/tmp") tt) = inr tt.
Proof.
  apply (scp_upload (R := sample_runtime) None true (Some "TOK") None None 22 true
           false [local_file "a.txt"; {| host := None; path := None |}]
           (remote_file "host" "/tmp") "host" tt).
  - reflexivity.
  - repeat constructor.
  - reflexivity.
Defined.

(** X11 at [scp --token TOK h1:a h2:b .]. *)
Lemma scp_download_witness :
  exists transfers : list (session * string),
    List.length transfers = 2%nat /\
    trace (scp (R := sample_runtime) None true (Some "TOK") None None false 22
             false false [remote_file "h1" "a"; remote_file "h2" "b"]
             (local_file ".") tt)
    = flat_map
        (fetch_events None true (Some "TOK") None None 22 false false
           (get (path (local_file ".")) "."))
        (combine [remote_file "h1" "a"; remote_file "h2" "b"] transfers) /\
    result (scp (R := sample_runtime) None true (Some "TOK") None None false 22
              false false [remote_file "h1" "a"; remote_file "h2" "b"]
              (local_file ".") tt) = inr tt.
Proof.
  apply (scp_download (R := sample_runtime) None true (Some "TOK") None None 22
           false false [remote_file "h1" "a"; remote_file "h2" "b"]
           (local_file ".") tt).
  - reflexivity.
  - repeat constructor.
  - reflexivity.
Defined.

(** X13 at [scp --dry-run --token TOK h1:a h2:b .]. *)
Lemma scp_dry_run_download_witness :
  exists (password : string) (sessions : list session),
    List.length sessions = 2%nat /\
    trace (scp (R := sample_runtime) None true (Some "TOK") None None true 22
             false false [remote_file "h1" "a"; remote_file "h2" "b"]
             (local_file ".") tt)
    = (Called (c_str_init_token (Some "TOK") None None) (inr password)
       :: flat_map (resolve_events None true (Some "TOK") None None)
            (combine [remote_file "h1" "a"; remote_file "h2" "b"] sessions)
       ++ [Printed
             (scp_sshpass_cmd password (scp_opts false false 22)
                ++ join_operands
                     (map remote_operand
                        (combine [remote_file "h1" "a"; remote_file "h2" "b"]
                           sessions)
                        ++ [get (path (local_file ".")) "."])%list)])%list.
Proof.
  apply (scp_dry_run_download (R := sample_runtime) None true (Some "TOK") None
           None 22 false false [remote_file "h1" "a"; remote_file "h2" "b"]
           (local_file ".") tt).
  - reflexivity.
  - repeat constructor.
  - reflexivity.
Defined.
